(** * Habit tracker: the streak engine, the two server backends and the client

    A shallow embedding of
      - [src/server/index.js]   the Express server over a JSON file,
      - the SQLite variant of the same server,
      - the React client's [addHabit], [toggleHabit] and [deleteHabit],
    and the properties of the toggle transition, of the name validation,
    of the store updates and of the client's list against the server's.

    Conventions of the embedding.
      - A JavaScript number holding a streak or an id is a [Z].
      - A JavaScript string is a [string]; its characters are read as code
        units below 256.
      - [last_completed_date : string | null] is an [option string], and
        [a === b] on it is equality of options.
      - The handlers read the wall clock twice ([new Date()]): once for
        [today] and once for [yesterdayStr].  The two strings they derive
        are the handler's only inputs from the clock, so a [Clock] value
        carries exactly these two strings.
      - File and database operations are assumed to return; the [catch]
        branches answering 500 are outside the model, except the missing
        file, which [readData] handles itself. *)

From Stdlib Require Import ZArith String Ascii Bool Lia.
From stdpp Require Import base decidable option list strings.

Local Open Scope string_scope.
Local Open Scope Z_scope.

(** ** Data model *)

(** [interface Habit] of the client; the JSON file and the SQLite table
    hold records of the same shape. *)
Record Habit : Type := mkHabit {
  id : Z;
  name : string;
  streak : Z;
  completed_today : bool;
  last_completed_date : option string
}.

#[global] Instance Habit_eq_dec : EqDecision Habit.
Proof. solve_decision. Defined.

(** What a toggle handler learns from the clock:
    [today = new Date().toISOString().split('T')[0]] and
    [yesterdayStr], the same rendering of a second [new Date()] moved back
    by one day with [setDate(getDate() - 1)]. *)
Record Clock : Type := mkClock {
  today : string;
  yesterdayStr : string
}.

(** The object spread [{...habit, completed_today, streak,
    last_completed_date}] of the JSON server; the SQLite server's
    [UPDATE habits SET completed_today = ?, streak = ?,
    last_completed_date = ?] does the same to a row.  Every other field is
    kept. *)
Definition spread (habit : Habit) (next : bool * Z * option string) : Habit :=
  let '(newCompletedToday, newStreak, newLastDate) := next in
  {| id := id habit;
     name := name habit;
     streak := newStreak;
     completed_today := newCompletedToday;
     last_completed_date := newLastDate |}.

(** [if (newStreak > 0) newStreak -= 1] *)
Definition decrement (newStreak : Z) : Z :=
  if 0 <? newStreak then newStreak - 1 else newStreak.

(** What a handler answers: [res.status(s).json(body)]; [body] is [None]
    for the error objects and for the empty answers. *)
Record Response : Type := mkResponse {
  status : Z;
  body : option Habit
}.

(** ** Name validation: [habitSchema] *)

(** The checks of a zod string schema.  zod keeps them in the order in
    which they were chained and runs them in that order over the data: a
    failed [min] or [max] records its message, [trim] replaces the data by
    its trimmed form for the checks that follow and for the result. *)
Inductive StringCheck : Type :=
  | check_min (value : nat) (message : string)
  | check_max (value : nat) (message : string)
  | check_trim.

(** White space and line terminators of [String.prototype.trim] among the
    code units below 256: TAB, LF, VT, FF, CR, SP and NBSP. *)
Definition is_white_space (a : ascii) : bool :=
  let n := nat_of_ascii a in
  ((9 <=? n) && (n <=? 13) || (n =? 32) || (n =? 160))%nat.

Fixpoint trimStart (s : string) : string :=
  match s with
  | EmptyString => EmptyString
  | String a s' => if is_white_space a then trimStart s' else s
  end.

Fixpoint trimEnd (s : string) : string :=
  match s with
  | EmptyString => EmptyString
  | String a s' =>
      match trimEnd s' with
      | EmptyString => if is_white_space a then EmptyString
                       else String a EmptyString
      | rest => String a rest
      end
  end.

Definition trim (s : string) : string := trimEnd (trimStart s).

Fixpoint run_checks (checks : list StringCheck) (data : string)
    : list string * string :=
  match checks with
  | [] => ([], data)
  | check_min value message :: checks =>
      let '(issues, out) := run_checks checks data in
      (((if (String.length data <? value)%nat then [message] else [])
          ++ issues)%list, out)
  | check_max value message :: checks =>
      let '(issues, out) := run_checks checks data in
      (((if (value <? String.length data)%nat then [message] else [])
          ++ issues)%list, out)
  | check_trim :: checks => run_checks checks (trim data)
  end.

(** [z.string().min(1, ...).max(50, ...).trim()] *)
Definition habitSchema : list StringCheck :=
  [check_min 1 "Habit name is required";
   check_max 50 "Habit name too long";
   check_trim].

Inductive SafeParse : Type :=
  | success (data : string)
  | failure (errors : list string).

(** [habitSchema.safeParse(req.body)].  The request body enters as the
    value of its [name] field: [Some s] when the body is an object whose
    [name] is the string [s], [None] otherwise. *)
Definition safeParse (schema : list StringCheck) (req_body : option string)
    : SafeParse :=
  match req_body with
  | None => failure ["Required"]
  | Some s =>
      match run_checks schema s with
      | ([], data) => success data
      | (errors, _) => failure errors
      end
  end.

(** A name made of white space only, and a name without any. *)
Fixpoint blank (s : string) : bool :=
  match s with
  | EmptyString => true
  | String a s' => is_white_space a && blank s'
  end.

Fixpoint solid (s : string) : bool :=
  match s with
  | EmptyString => true
  | String a s' => negb (is_white_space a) && solid s'
  end.

(** A string that does not begin with white space. *)
Definition starts_solid (s : string) : Prop :=
  match s with
  | EmptyString => True
  | String a _ => is_white_space a = false
  end.

(** ** The JSON-file server, [src/server/index.js] *)
Module JsonServer.

(** [habits.json]: [None] while the file does not exist. *)
Abbreviation Disk := (option (list Habit)).

Definition writeData (data : list Habit) : Disk := Some data.

(** Returns the habits read and the file afterwards: on [ENOENT] it
    writes the empty array. *)
Definition readData (d : Disk) : list Habit * Disk :=
  match d with
  | Some data => (data, d)
  | None => ([], writeData [])
  end.

(** GET /api/habits *)
Definition list_habits (d : Disk) : list Habit * Disk := readData d.

(** The habit POST builds; [now] is [Date.now()]. *)
Definition newHabit (now : Z) (name : string) : Habit :=
  {| id := now; name := name; streak := 0; completed_today := false;
     last_completed_date := None |}.

(** POST /api/habits *)
Definition create (req_body : option string) (now : Z) (d : Disk)
    : Response * Disk :=
  match safeParse habitSchema req_body with
  | failure _ => (mkResponse 400 None, d)
  | success name =>
      let '(habits, d) := readData d in
      let habits := (habits ++ [newHabit now name])%list in
      (mkResponse 201 (Some (newHabit now name)), writeData habits)
  end.

(** Lines 120-140 of the PATCH handler: the three new values. *)
Definition next (habit : Habit) (c : Clock) : bool * Z * option string :=
  let newCompletedToday := negb (completed_today habit) in
  let newStreak := streak habit in
  let newLastDate := last_completed_date habit in
  if newCompletedToday then
    let newStreak :=
      if bool_decide (last_completed_date habit = Some (yesterdayStr c)) then
        newStreak + 1
      else if bool_decide (last_completed_date habit ≠ Some (today c)) then
        1
      else newStreak in
    let newLastDate := Some (today c) in
    (newCompletedToday, newStreak, newLastDate)
  else
    if bool_decide (last_completed_date habit = Some (today c)) then
      let newStreak := decrement newStreak in
      let newLastDate := None in
      (newCompletedToday, newStreak, newLastDate)
    else
      (newCompletedToday, newStreak, newLastDate).

(** Lines 120-147: the record stored at [habits[habitIndex]]. *)
Definition transition (habit : Habit) (c : Clock) : Habit :=
  spread habit (next habit c).

(** PATCH /api/habits/:id/toggle; [i] is the number [parseInt] reads
    from the route parameter. *)
Definition toggle (i : Z) (c : Clock) (d : Disk) : Response * Disk :=
  let '(habits, d) := readData d in
  match list_find (λ h, id h = i) habits with
  | None => (mkResponse 404 None, d)
  | Some (habitIndex, habit) =>
      let habits := <[habitIndex := transition habit c]> habits in
      (mkResponse 200 (habits !! habitIndex), writeData habits)
  end.

(** DELETE /api/habits/:id *)
Definition remove (i : Z) (d : Disk) : Response * Disk :=
  let '(habits, d) := readData d in
  let filteredHabits := filter (λ h, id h ≠ i) habits in
  (mkResponse 204 None, writeData filteredHabits).

(** The habits the file holds; a missing file holds none. *)
Definition stored (d : Disk) : list Habit := default [] d.

End JsonServer.

(** ** The SQLite server *)
Module SqliteServer.

(** The [habits] table in rowid order, and the counter SQLite keeps for
    [AUTOINCREMENT]. *)
Record Db : Type := mkDb {
  rows : list Habit;
  seq : Z
}.

(** [db.get('SELECT * FROM habits WHERE id = ?', i)] *)
Definition db_get (i : Z) (db : Db) : option Habit :=
  snd <$> list_find (λ r, id r = i) (rows db).

(** [INSERT INTO habits (name, streak, completed_today,
    last_completed_date) VALUES (?, 0, 0, NULL)]; returns [lastID]. *)
Definition db_insert (name : string) (db : Db) : Z * Db :=
  let lastID := seq db + 1 in
  (lastID,
   {| rows := (rows db ++ [mkHabit lastID name 0 false None])%list;
      seq := lastID |}).

(** [UPDATE habits SET completed_today = ?, streak = ?,
    last_completed_date = ? WHERE id = ?] *)
Definition db_update (next : bool * Z * option string) (i : Z) (db : Db)
    : Db :=
  {| rows := (λ r, if bool_decide (id r = i) then spread r next else r)
               <$> rows db;
     seq := seq db |}.

(** [DELETE FROM habits WHERE id = ?] *)
Definition db_delete (i : Z) (db : Db) : Db :=
  {| rows := filter (λ r, id r ≠ i) (rows db); seq := seq db |}.

(** POST /api/habits *)
Definition create (req_body : option string) (db : Db) : Response * Db :=
  match safeParse habitSchema req_body with
  | failure _ => (mkResponse 400 None, db)
  | success name =>
      let '(lastID, db) := db_insert name db in
      (mkResponse 201 (db_get lastID db), db)
  end.

(** Lines 119-151 of the PATCH handler: the three new values.  The table
    stores [completed_today] as 0 or 1, which [!completed_today] reads
    by truthiness; the boolean here is that truth value. *)
Definition next (habit : Habit) (c : Clock) : bool * Z * option string :=
  let newCompletedToday := negb (completed_today habit) in
  let newStreak := streak habit in
  let newLastDate := last_completed_date habit in
  if newCompletedToday then
    let newStreak :=
      if bool_decide (last_completed_date habit ≠ Some (today c)) then
        if bool_decide (last_completed_date habit = Some (yesterdayStr c)) then
          newStreak + 1
        else if bool_decide (last_completed_date habit ≠ Some (today c)) then
          1
        else newStreak
      else newStreak in
    let newLastDate := Some (today c) in
    (newCompletedToday, newStreak, newLastDate)
  else
    if bool_decide (last_completed_date habit = Some (today c)) then
      let newStreak := decrement newStreak in
      let newLastDate := None in
      (newCompletedToday, newStreak, newLastDate)
    else
      (newCompletedToday, newStreak, newLastDate).

(** The row after the UPDATE. *)
Definition transition (habit : Habit) (c : Clock) : Habit :=
  spread habit (next habit c).

(** PATCH /api/habits/:id/toggle *)
Definition toggle (i : Z) (c : Clock) (db : Db) : Response * Db :=
  match db_get i db with
  | None => (mkResponse 404 None, db)
  | Some habit =>
      let db := db_update (next habit c) i db in
      (mkResponse 200 (db_get i db), db)
  end.

(** DELETE /api/habits/:id *)
Definition remove (i : Z) (db : Db) : Response * Db :=
  (mkResponse 204 None, db_delete i db).

(** GET /api/habits: [db.all('SELECT * FROM habits')] *)
Definition list_habits (db : Db) : list Habit := rows db.

(** What [PRIMARY KEY AUTOINCREMENT] keeps of a table: no id occurs
    twice, and none is above the counter. *)
Definition db_wf (db : Db) : Prop :=
  NoDup (id <$> rows db) ∧ Forall (λ r, id r ≤ seq db) (rows db).

End SqliteServer.

(** ** The client, [toggleHabit] *)
Module Client.

(** The object built inside [habits.map] for the row with the toggled
    id (lines 64-71). *)
Definition optimistic (h : Habit) : Habit :=
  let wasCompleted := completed_today h in
  {| id := id h;
     name := name h;
     streak := if negb wasCompleted then streak h + 1
               else Z.max 0 (streak h - 1);
     completed_today := negb wasCompleted;
     last_completed_date := last_completed_date h |}.

(** [updatedHabits], lines 62-74. *)
Definition toggleHabit (habits : list Habit) (i : Z) : list Habit :=
  (λ h, if bool_decide (id h = i) then optimistic h else h) <$> habits.

(** [res.ok]: a status from 200 to 299. *)
Definition ok (res : Response) : bool :=
  (200 <=? status res) && (status res <=? 299).

(** What [toggleHabit] and [addHabit] have of their request once it has
    settled: [fetch] or [res.json()] threw; or the answer was not ok, and
    its body is not read; or it was ok and [res.json()] gave [data].  The
    list on screen is a [Habit[]], and [data] is taken to be a habit
    record. *)
Inductive Fetched : Type :=
  | threw
  | not_ok
  | ok_json (data : Habit).

(** What the client makes of an answer of one of the two servers.  They
    send their error objects with a status that is not ok; an ok answer
    of theirs without a habit has an empty body, on which [res.json()]
    throws. *)
Definition fetched (res : Response) : Fetched :=
  if ok res then
    match body res with
    | Some data => ok_json data
    | None => threw
    end
  else not_ok.

(** The list [toggleHabit] leaves on screen once the request has settled
    (lines 59-90).  No other update of the list runs in between, so the
    [prev] of the last [setHabits] is [updatedHabits]. *)
Definition toggleHabit_settled (habits : list Habit) (i : Z)
    (res : Fetched) : list Habit :=
  let oldHabits := habits in
  let updatedHabits := toggleHabit habits i in
  match res with
  | ok_json updatedHabit =>
      (λ h, if bool_decide (id h = i) then updatedHabit else h)
        <$> updatedHabits
  | not_ok => oldHabits
  | threw => oldHabits
  end.

(** [addHabit], lines 38-47: the name it posts, [None] when the guard
    [if (!newHabitName.trim()) return] stops it. *)
Definition addHabit_request (newHabitName : string) : option string :=
  match trim newHabitName with
  | EmptyString => None
  | _ => Some newHabitName
  end.

(** [addHabit], lines 49-53: the list and the input field once the
    request has settled. *)
Definition addHabit_settled (habits : list Habit) (newHabitName : string)
    (res : Fetched) : list Habit * string :=
  match res with
  | ok_json habit => ((habits ++ [habit])%list, "")
  | not_ok => (habits, newHabitName)
  | threw => (habits, newHabitName)
  end.

(** [deleteHabit], lines 92-96: the list shown at once; [confirmed] is
    the answer to [confirm("Delete this habit?")]. *)
Definition deleteHabit (confirmed : bool) (habits : list Habit) (i : Z)
    : list Habit :=
  if confirmed then filter (λ h, id h ≠ i) habits else habits.

End Client.

(** ** Sequences of toggles *)

(** The record after toggling once per clock reading, first reading
    first. *)
Definition toggles (step : Habit → Clock → Habit) (h : Habit)
    (cs : list Clock) : Habit :=
  foldl step h cs.

(** What every toggle keeps: the streak is never negative, and a habit
    with a last date has a streak of at least 1. *)
Definition streak_inv (h : Habit) : Prop :=
  0 ≤ streak h ∧ (last_completed_date h ≠ None → 1 ≤ streak h).

(** Clock readings of consecutive days, the first one the day after the
    date [d]: each reading's yesterday is the date before it, and is
    another date than its today. *)
Fixpoint consecutive (d : string) (cs : list Clock) : Prop :=
  match cs with
  | [] => True
  | c :: cs => yesterdayStr c = d ∧ today c ≠ d ∧ consecutive (today c) cs
  end.

(** Two toggles at every reading. *)
Definition twice (cs : list Clock) : list Clock :=
  cs ≫= λ c, [c; c].

(** The date of the last reading, [d] when there is none. *)
Definition last_day (d : string) (cs : list Clock) : string :=
  foldl (λ _ c, today c) d cs.

(** * Properties *)

(** ** The spec's scenarios, run on both servers *)

Example scenario_continue :
  JsonServer.transition (mkHabit 7 "run" 3 false (Some "2024-01-09"))
                        (mkClock "2024-01-10" "2024-01-09")
  = mkHabit 7 "run" 4 true (Some "2024-01-10").
Proof. reflexivity. Qed.

Example scenario_fresh :
  SqliteServer.transition (mkHabit 1 "read" 0 false None)
                          (mkClock "2024-03-01" "2024-02-29")
  = mkHabit 1 "read" 1 true (Some "2024-03-01").
Proof. reflexivity. Qed.

Example scenario_undo :
  JsonServer.transition (mkHabit 1 "read" 5 true (Some "2024-03-01"))
                        (mkClock "2024-03-01" "2024-02-29")
  = mkHabit 1 "read" 4 false None.
Proof. reflexivity. Qed.

(** ** Proof tools *)

Ltac unfold_engine :=
  unfold toggles, JsonServer.transition, SqliteServer.transition,
    JsonServer.next, SqliteServer.next, Client.optimistic, spread,
    decrement in *;
  simpl in *.

Ltac split_cases :=
  repeat first
    [ case_bool_decide
    | match goal with |- context [(0 <? ?x)] => destruct (Z.ltb_spec 0 x) end ];
  simpl in *.

Ltac engine :=
  unfold_engine; split_cases; simplify_eq; try done; try lia.

Ltac either_backend H :=
  destruct H as [-> | ->].

(** Neither server touches [id] or [name]. *)
Lemma spread_id habit nx : id (spread habit nx) = id habit.
Proof. by destruct nx as [[??]?]. Qed.

Lemma spread_name habit nx : name (spread habit nx) = name habit.
Proof. by destruct nx as [[??]?]. Qed.

(** The two servers flip the flag. *)
Lemma transition_flips (T : Habit → Clock → Habit) h c :
  T = JsonServer.transition ∨ T = SqliteServer.transition →
  completed_today (T h c) = negb (completed_today h).
Proof. intros HT. either_backend HT; destruct h as [? ? ? [] ?]; engine. Qed.

(** ** Marking done *)

(** At a clock reading whose two dates differ, a habit that is not
    completed is marked done as follows: the flag becomes true, the last
    date becomes [today c], and the streak grows by one when the last date
    is [yesterdayStr c], stays when the last date is [today c], and is 1
    otherwise, a missing last date included. *)
Theorem toggle_marks_done (h : Habit) (c : Clock) :
  today c ≠ yesterdayStr c →
  completed_today h = false →
  ∀ h', h' = JsonServer.transition h c ∨ h' = SqliteServer.transition h c →
    completed_today h' = true
    ∧ last_completed_date h' = Some (today c)
    ∧ (last_completed_date h = Some (yesterdayStr c) →
         streak h' = streak h + 1)
    ∧ (last_completed_date h = Some (today c) → streak h' = streak h)
    ∧ (last_completed_date h ≠ Some (yesterdayStr c) →
       last_completed_date h ≠ Some (today c) →
         streak h' = 1).
Proof.
  intros Hdays Hct h' Hh'. destruct h as [i n s ct l]; simpl in *; subst ct.
  either_backend Hh'; engine; repeat split; intros; simplify_eq; done.
Qed.

Lemma toggle_marks_done_witness :
  let h := mkHabit 7 "run" 3 false (Some "2024-01-09") in
  let c := mkClock "2024-01-10" "2024-01-09" in
  let h' := JsonServer.transition h c in
  completed_today h' = true
  ∧ last_completed_date h' = Some (today c)
  ∧ (last_completed_date h = Some (yesterdayStr c) → streak h' = streak h + 1)
  ∧ (last_completed_date h = Some (today c) → streak h' = streak h)
  ∧ (last_completed_date h ≠ Some (yesterdayStr c) →
     last_completed_date h ≠ Some (today c) →
       streak h' = 1).
Proof.
  intros h c h'.
  apply (toggle_marks_done h c); [discriminate | reflexivity | left; reflexivity].
Defined.


(** ** Unmarking *)

(** C4.  A completed habit with a non-negative streak is unmarked by a
    toggle on date [today c]: the flag becomes false; when the last date
    is that date the streak becomes [max 0 (streak - 1)] and the last date
    null; otherwise streak and last date stay. *)
Theorem toggle_unmarks (h : Habit) (c : Clock) :
  0 ≤ streak h →
  completed_today h = true →
  ∀ h', h' = JsonServer.transition h c ∨ h' = SqliteServer.transition h c →
    completed_today h' = false
    ∧ (last_completed_date h = Some (today c) →
         streak h' = Z.max 0 (streak h - 1) ∧ last_completed_date h' = None)
    ∧ (last_completed_date h ≠ Some (today c) →
         streak h' = streak h
         ∧ last_completed_date h' = last_completed_date h).
Proof.
  intros Hs Hct h' Hh'. destruct h as [i n s ct l]; simpl in *; subst ct.
  either_backend Hh'; engine; repeat split; intros; simplify_eq; lia.
Qed.

Lemma toggle_unmarks_witness :
  let h := mkHabit 1 "read" 5 true (Some "2024-03-01") in
  let c := mkClock "2024-03-01" "2024-02-29" in
  let h' := SqliteServer.transition h c in
  completed_today h' = false
  ∧ (last_completed_date h = Some (today c) →
       streak h' = Z.max 0 (streak h - 1) ∧ last_completed_date h' = None)
  ∧ (last_completed_date h ≠ Some (today c) →
       streak h' = streak h ∧ last_completed_date h' = last_completed_date h).
Proof.
  intros h c h'.
  apply (toggle_unmarks h c); [simpl; lia | reflexivity | right; reflexivity].
Defined.

(** ** Marking done and undoing on the same date *)

(** C2, as stated, fails: a habit last completed the day before, marked
    done and unmarked on the same date, keeps its streak but loses its
    last date. *)
Lemma done_then_undone_counterexample :
  let h := mkHabit 7 "run" 3 false (Some "2024-01-09") in
  let c := mkClock "2024-01-10" "2024-01-09" in
  completed_today h = false
  ∧ JsonServer.transition (JsonServer.transition h c) c
      = mkHabit 7 "run" 3 false None
  ∧ SqliteServer.transition (SqliteServer.transition h c) c
      = mkHabit 7 "run" 3 false None
  ∧ ¬ (streak (JsonServer.transition (JsonServer.transition h c) c) = streak h
       ∧ last_completed_date (JsonServer.transition (JsonServer.transition h c) c)
         = last_completed_date h).
Proof.
  simpl. split_and!; [reflexivity..|]. intros [_ Hlast]. vm_compute in Hlast.
  discriminate Hlast.
Qed.

(** C2, amended.  Marking a habit with a streak of at least 0 done at a
    clock reading and undoing it at the same reading leaves it not
    completed and with no last date, whatever the two dates of the
    reading are.  Its streak is the old one when the old last date is
    [yesterdayStr c] and not [today c], one less (not below 0) when it is
    [today c] and not [yesterdayStr c], and 0 when it is neither.  When
    the old last date is both, the JSON server gives the old streak and
    the SQLite server one less (not below 0).  Hence streak and last date
    are both back at their old values exactly when the old streak is 0
    and the old last date null. *)
Theorem done_then_undone (h : Habit) (c : Clock) :
  0 ≤ streak h →
  completed_today h = false →
  (∀ T, T = JsonServer.transition ∨ T = SqliteServer.transition →
     let h'' := T (T h c) c in
     completed_today h'' = false
     ∧ last_completed_date h'' = None
     ∧ (last_completed_date h = Some (yesterdayStr c) →
        last_completed_date h ≠ Some (today c) →
          streak h'' = streak h)
     ∧ (last_completed_date h = Some (today c) →
        last_completed_date h ≠ Some (yesterdayStr c) →
          streak h'' = Z.max 0 (streak h - 1))
     ∧ (last_completed_date h ≠ Some (yesterdayStr c) →
        last_completed_date h ≠ Some (today c) →
          streak h'' = 0)
     ∧ (streak h'' = streak h
        ∧ last_completed_date h'' = last_completed_date h
        ↔ streak h = 0 ∧ last_completed_date h = None))
  ∧ (last_completed_date h = Some (yesterdayStr c) →
       streak (JsonServer.transition (JsonServer.transition h c) c)
       = streak h)
  ∧ (last_completed_date h = Some (today c) →
       streak (SqliteServer.transition (SqliteServer.transition h c) c)
       = Z.max 0 (streak h - 1)).
Proof.
  intros Hs Hct. destruct h as [i n s ct l]; simpl in *; subst ct.
  split_and!.
  - intros T HT.
    either_backend HT; engine;
      (split_and!; [done..| | | |]; try (intros; simplify_eq; lia);
       try (split; intros [??]; simplify_eq; split; (done || lia))).
  - intros ->. engine.
  - intros ->. engine.
Qed.

Lemma done_then_undone_witness :
  let h := mkHabit 7 "run" 3 false (Some "2024-01-10") in
  let c := mkClock "2024-01-10" "2024-01-10" in
  last_completed_date
    (JsonServer.transition (JsonServer.transition h c) c) = None
  ∧ streak (JsonServer.transition (JsonServer.transition h c) c) = 3
  ∧ streak (SqliteServer.transition (SqliteServer.transition h c) c) = 2.
Proof.
  intros h c.
  destruct (done_then_undone h c) as (Hall & Hj & Hs);
    [simpl; lia | reflexivity |].
  destruct (Hall JsonServer.transition) as (_ & Hl & _); [left; reflexivity|].
  split; [exact Hl|]. split; [apply Hj; reflexivity | apply Hs; reflexivity].
Defined.

(** ** The client's optimistic update against the servers *)

(** C6, as stated, fails: for a habit last completed several days ago the
    client shows streak + 1 and the old last date, the server answers
    streak 1 and the new date. *)
Lemma optimistic_counterexample :
  let h := mkHabit 7 "run" 3 false (Some "2024-01-05") in
  let c := mkClock "2024-01-10" "2024-01-09" in
  Client.toggleHabit [h] 7 = [mkHabit 7 "run" 4 true (Some "2024-01-05")]
  ∧ JsonServer.transition h c = mkHabit 7 "run" 1 true (Some "2024-01-10")
  ∧ SqliteServer.transition h c = mkHabit 7 "run" 1 true (Some "2024-01-10")
  ∧ streak (Client.optimistic h) ≠ streak (JsonServer.transition h c)
  ∧ last_completed_date (Client.optimistic h)
      ≠ last_completed_date (JsonServer.transition h c).
Proof. simpl. split_and!; [reflexivity.. | discriminate | discriminate]. Qed.

(** [toggleHabit] rewrites the rows with the toggled id by [optimistic]
    and keeps the others. *)
Lemma toggleHabit_lookup (habits : list Habit) (i : Z) (k : nat) :
  Client.toggleHabit habits i !! k
  = (λ h, if bool_decide (id h = i) then Client.optimistic h else h)
      <$> habits !! k.
Proof. unfold Client.toggleHabit. apply list_lookup_fmap. Qed.

(** C6, amended.  For a habit with a streak of at least 0 and at every
    clock reading, the client's optimistic record has the server's
    [completed_today].  It never changes [last_completed_date].  Its
    streak is the server's when the habit is being marked done and its
    last date is [yesterdayStr c] and not [today c] (on the JSON server:
    is [yesterdayStr c]), and when the habit is being unmarked and its
    last date is [today c]. *)
Theorem optimistic_agreement (h : Habit) (c : Clock) :
  0 ≤ streak h →
  (∀ T, T = JsonServer.transition ∨ T = SqliteServer.transition →
     completed_today (Client.optimistic h) = completed_today (T h c)
     ∧ last_completed_date (Client.optimistic h) = last_completed_date h
     ∧ (completed_today h = false →
        last_completed_date h = Some (yesterdayStr c) →
        last_completed_date h ≠ Some (today c) →
          streak (Client.optimistic h) = streak (T h c))
     ∧ (completed_today h = true →
        last_completed_date h = Some (today c) →
          streak (Client.optimistic h) = streak (T h c)))
  ∧ (completed_today h = false →
     last_completed_date h = Some (yesterdayStr c) →
       streak (Client.optimistic h) = streak (JsonServer.transition h c)).
Proof.
  intros Hs. destruct h as [i n s ct l]; simpl in *. split.
  - intros T HT. either_backend HT; destruct ct; engine;
      split_and!; intros; simplify_eq; (done || lia).
  - intros -> ->. engine.
Qed.

Lemma optimistic_agreement_witness :
  let h := mkHabit 7 "run" 3 false (Some "2024-01-09") in
  let c := mkClock "2024-01-10" "2024-01-09" in
  completed_today (Client.optimistic h)
    = completed_today (SqliteServer.transition h c)
  ∧ streak (Client.optimistic h) = streak (SqliteServer.transition h c)
  ∧ streak (Client.optimistic h) = streak (JsonServer.transition h c).
Proof.
  intros h c.
  destruct (optimistic_agreement h c) as (Hall & Hj); [simpl; lia|].
  destruct (Hall SqliteServer.transition) as (Hc & _ & Hm & _);
    [right; reflexivity|].
  split; [exact Hc|].
  split; [apply Hm; [reflexivity | reflexivity | discriminate]
         | apply Hj; reflexivity].
Defined.

(** ** The two servers against each other *)


(** The readings at which the two servers differ. *)
Lemma backends_differ_iff (h : Habit) (c : Clock) :
  JsonServer.next h c ≠ SqliteServer.next h c
  ↔ completed_today h = false
    ∧ last_completed_date h = Some (today c)
    ∧ today c = yesterdayStr c.
Proof.
  destruct h as [i n s ct l], c as [t y]; simpl.
  split.
  - intros Hne. destruct ct; engine.
  - intros (-> & -> & ->). engine. intros ?; simplify_eq; lia.
Qed.

(** At every clock reading whose two dates differ the two servers
    compute the same [completed_today], streak and last date for every
    habit. *)
Theorem backends_agree (h : Habit) (c : Clock) :
  today c ≠ yesterdayStr c →
  JsonServer.next h c = SqliteServer.next h c.
Proof.
  intros Hdays. destruct (decide (JsonServer.next h c = SqliteServer.next h c))
    as [|Hne]; [done|].
  apply backends_differ_iff in Hne as (_ & _ & ?). done.
Qed.

Lemma backends_agree_witness :
  JsonServer.next (mkHabit 7 "run" 3 false (Some "2024-01-10"))
                  (mkClock "2024-01-10" "2024-01-09")
  = SqliteServer.next (mkHabit 7 "run" 3 false (Some "2024-01-10"))
                      (mkClock "2024-01-10" "2024-01-09").
Proof. apply backends_agree. discriminate. Defined.

(** ** Consecutive and skipped days *)

(** C7, as stated, fails.  No handler clears [completed_today] when the
    day changes, so the second toggle, on day D+1 or D+2, finds the flag
    set and unmarks: the streak is neither one more nor 1.  And a toggle
    that does mark the habit done on day D+1 (reading [r1]) resets the
    streak to 1 when the handler's second clock reading falls after
    midnight, so that its [yesterdayStr] is D+1 and not D. *)
Lemma next_day_counterexample :
  let h := mkHabit 7 "run" 3 false (Some "2024-01-08") in
  let d0 := mkClock "2024-01-09" "2024-01-08" in
  let d1 := mkClock "2024-01-10" "2024-01-09" in
  let d2 := mkClock "2024-01-11" "2024-01-10" in
  let r1 := mkClock "2024-01-10" "2024-01-10" in
  toggles JsonServer.transition h [d0]
    = mkHabit 7 "run" 4 true (Some "2024-01-09")
  ∧ toggles JsonServer.transition h [d0; d1]
    = mkHabit 7 "run" 4 false (Some "2024-01-09")
  ∧ toggles JsonServer.transition h [d0; d2]
    = mkHabit 7 "run" 4 false (Some "2024-01-09")
  ∧ toggles SqliteServer.transition h [d0; d1]
    = mkHabit 7 "run" 4 false (Some "2024-01-09")
  ∧ toggles SqliteServer.transition h [d0; d2]
    = mkHabit 7 "run" 4 false (Some "2024-01-09")
  ∧ toggles JsonServer.transition h [d0; d1; r1]
    = mkHabit 7 "run" 1 true (Some "2024-01-10")
  ∧ toggles SqliteServer.transition h [d0; d1; r1]
    = mkHabit 7 "run" 1 true (Some "2024-01-10")
  ∧ ¬ (streak (toggles JsonServer.transition h [d0; d1])
         = streak (toggles JsonServer.transition h [d0]) + 1
       ∧ streak (toggles JsonServer.transition h [d0; d2]) = 1)
  ∧ streak (toggles JsonServer.transition h [d0; d1; r1])
    ≠ streak (toggles JsonServer.transition h [d0]) + 1.
Proof.
  simpl. split_and!; [reflexivity.. | | discriminate].
  intros [H _]. vm_compute in H. discriminate H.
Qed.

(** C7, amended.  Mark a habit that is not completed done (reading [d0],
    whose [today] is the date D).  A toggle at a reading whose [today] is
    not D clears the flag and leaves streak and last date.  A second
    toggle at that reading marks the habit done again: with a streak one
    above the streak of day D when the reading's [yesterdayStr] is D
    (reading [d1]), with streak 1 when neither its [today] nor its
    [yesterdayStr] is D (reading [d2]). *)
Theorem next_day_streak (h : Habit) (d0 d1 d2 : Clock) :
  completed_today h = false →
  yesterdayStr d1 = today d0 →
  today d1 ≠ today d0 →
  today d2 ≠ today d0 →
  yesterdayStr d2 ≠ today d0 →
  ∀ T, T = JsonServer.transition ∨ T = SqliteServer.transition →
    completed_today (toggles T h [d0]) = true
    ∧ toggles T h [d0; d1]
        = spread (toggles T h [d0])
            (false, streak (toggles T h [d0]),
             last_completed_date (toggles T h [d0]))
    ∧ completed_today (toggles T h [d0; d1; d1]) = true
    ∧ streak (toggles T h [d0; d1; d1]) = streak (toggles T h [d0]) + 1
    ∧ toggles T h [d0; d2]
        = spread (toggles T h [d0])
            (false, streak (toggles T h [d0]),
             last_completed_date (toggles T h [d0]))
    ∧ completed_today (toggles T h [d0; d2; d2]) = true
    ∧ streak (toggles T h [d0; d2; d2]) = 1.
Proof.
  intros Hct Hy1 Ht1 Ht2 Hy2 T HT.
  destruct h as [i n s ct l], d0 as [t0 y0], d1 as [t1 y1], d2 as [t2 y2];
    simpl in *; subst ct y1.
  either_backend HT; engine.
Qed.

Lemma next_day_streak_witness :
  let h := mkHabit 7 "run" 3 false (Some "2024-01-08") in
  let d0 := mkClock "2024-01-09" "2024-01-08" in
  let d1 := mkClock "2024-01-10" "2024-01-09" in
  let d2 := mkClock "2024-01-11" "2024-01-10" in
  streak (toggles JsonServer.transition h [d0]) = 4
  ∧ streak (toggles JsonServer.transition h [d0; d1; d1]) = 5
  ∧ streak (toggles JsonServer.transition h [d0; d2; d2]) = 1.
Proof.
  intros h d0 d1 d2.
  destruct (next_day_streak h d0 d1 d2) with (T := JsonServer.transition)
    as (_ & _ & _ & H1 & _ & _ & H2);
    [reflexivity | reflexivity | discriminate | discriminate | discriminate
    | left; reflexivity |].
  split; [reflexivity|]. split; [rewrite H1; reflexivity | exact H2].
Defined.

(** ** The invariant of a habit's life *)

Lemma streak_inv_fresh (i : Z) (n : string) :
  streak_inv (mkHabit i n 0 false None).
Proof. split; simpl; [lia | done]. Qed.

Lemma streak_inv_step (T : Habit → Clock → Habit) (h : Habit) (c : Clock) :
  T = JsonServer.transition ∨ T = SqliteServer.transition →
  streak_inv h → streak_inv (T h c).
Proof.
  intros HT [Hs Hl]. destruct h as [i n s [] l]; simpl in *;
    either_backend HT; unfold streak_inv; engine;
    split; intros; simplify_eq; try lia;
    try (assert (1 ≤ s) by (apply Hl; congruence); lia).
Qed.

Lemma streak_inv_toggles (T : Habit → Clock → Habit) (cs : list Clock) :
  T = JsonServer.transition ∨ T = SqliteServer.transition →
  ∀ h, streak_inv h → streak_inv (toggles T h cs).
Proof.
  intros HT. unfold toggles.
  induction cs as [|c cs IH]; intros h Hh; simpl; [done|].
  apply IH. by apply streak_inv_step.
Qed.

(** C1, as stated, fails: done on the 9th, the flag cleared and set again
    on the 10th (streak 2), then undone on the 10th: the last date is null
    and the streak is 1. *)
Lemma null_date_counterexample :
  let d0 := mkClock "2024-01-09" "2024-01-08" in
  let d1 := mkClock "2024-01-10" "2024-01-09" in
  toggles JsonServer.transition (JsonServer.newHabit 1 "run") [d0; d1; d1; d1]
    = mkHabit 1 "run" 1 false None
  ∧ toggles SqliteServer.transition (mkHabit 1 "run" 0 false None)
      [d0; d1; d1; d1]
    = mkHabit 1 "run" 1 false None
  ∧ ¬ (last_completed_date
         (toggles JsonServer.transition (JsonServer.newHabit 1 "run")
            [d0; d1; d1; d1]) = None
       ↔ streak
           (toggles JsonServer.transition (JsonServer.newHabit 1 "run")
              [d0; d1; d1; d1]) = 0).
Proof.
  simpl. split_and!; [reflexivity..|]. intros [H _].
  specialize (H eq_refl). vm_compute in H. discriminate H.
Qed.

(** C1, amended.  After any sequence of toggles of a freshly created
    habit, at any clock readings, the streak is not negative and a streak
    of 0 comes with a null last date; put otherwise, a habit with a last
    date has a streak of at least 1. *)
Theorem zero_streak_null_date (i : Z) (n : string) (cs : list Clock) :
  ∀ T, T = JsonServer.transition ∨ T = SqliteServer.transition →
    let h := toggles T (mkHabit i n 0 false None) cs in
    0 ≤ streak h
    ∧ (streak h = 0 → last_completed_date h = None)
    ∧ (last_completed_date h ≠ None → 1 ≤ streak h).
Proof.
  intros T HT h.
  destruct (streak_inv_toggles T cs HT _ (streak_inv_fresh i n)) as [Hs Hl].
  fold h in Hs, Hl. split_and!; [done | | done].
  intros H0. destruct (last_completed_date h) eqn:E; [|done].
  assert (1 ≤ streak h) by (apply Hl; done). lia.
Qed.

Lemma zero_streak_null_date_witness :
  let d0 := mkClock "2024-01-09" "2024-01-08" in
  let h := toggles SqliteServer.transition (mkHabit 1 "run" 0 false None)
             [d0; d0] in
  0 ≤ streak h
  ∧ (streak h = 0 → last_completed_date h = None)
  ∧ (last_completed_date h ≠ None → 1 ≤ streak h).
Proof.
  intros d0.
  apply (zero_streak_null_date 1 "run" [d0; d0]). right; reflexivity.
Defined.

(** ** Creating a habit *)

Lemma trimStart_blank (s : string) : blank s = true → trimStart s = "".
Proof.
  induction s as [|a s IH]; simpl; [done|].
  intros [Ha Hs]%andb_prop. rewrite Ha. auto.
Qed.

Lemma trim_blank (s : string) : blank s = true → trim s = "".
Proof. intros H. unfold trim. by rewrite trimStart_blank. Qed.

Lemma trimStart_solid (s : string) : solid s = true → trimStart s = s.
Proof.
  destruct s as [|a s]; simpl; [done|].
  intros [Ha _]%andb_prop. by rewrite (negb_true_iff _) in Ha; rewrite Ha.
Qed.

Lemma trimEnd_solid (s : string) : solid s = true → trimEnd s = s.
Proof.
  induction s as [|a s IH]; simpl; [done|].
  intros [Ha Hs]%andb_prop. rewrite (IH Hs).
  apply negb_true_iff in Ha. rewrite Ha. by destruct s.
Qed.

Lemma trim_solid (s : string) : solid s = true → trim s = s.
Proof.
  intros H. unfold trim. rewrite trimStart_solid by done.
  by apply trimEnd_solid.
Qed.

(** What [habitSchema] answers, by the length of the name given: the
    checks on the length see the name as it was sent, the result is the
    trimmed name. *)
Lemma safeParse_habitSchema (s : string) :
  safeParse habitSchema (Some s)
  = if (String.length s <? 1)%nat then failure ["Habit name is required"]
    else if (50 <? String.length s)%nat then failure ["Habit name too long"]
    else success (trim s).
Proof.
  unfold safeParse, habitSchema. simpl.
  destruct (String.length s <? 1)%nat eqn:E1;
    destruct (50 <? String.length s)%nat eqn:E2; simpl; try done.
  apply Nat.ltb_lt in E1, E2. lia.
Qed.

(** A rejected request leaves the store as it was, on both servers. *)
Lemma create_rejected_persists_nothing (req_body : option string) (now : Z) :
  (∀ d : JsonServer.Disk,
     status (JsonServer.create req_body now d).1 = 400 →
     (JsonServer.create req_body now d).2 = d)
  ∧ (∀ db : SqliteServer.Db,
     status (SqliteServer.create req_body db).1 = 400 →
     (SqliteServer.create req_body db).2 = db).
Proof.
  split; intros st; unfold JsonServer.create, SqliteServer.create;
    destruct (safeParse habitSchema req_body); simpl; try done.
  destruct (JsonServer.readData st); simpl. done.
Qed.

(** The empty name is rejected. *)
Lemma create_rejects_empty (now : Z) (d : JsonServer.Disk)
    (db : SqliteServer.Db) :
  JsonServer.create (Some "") now d = (mkResponse 400 None, d)
  ∧ SqliteServer.create (Some "") db = (mkResponse 400 None, db).
Proof. done. Qed.

(** A name of more than 50 characters, so one of 51, is rejected. *)
Lemma create_rejects_long (s : string) (now : Z) (d : JsonServer.Disk)
    (db : SqliteServer.Db) :
  (50 < String.length s)%nat →
  JsonServer.create (Some s) now d = (mkResponse 400 None, d)
  ∧ SqliteServer.create (Some s) db = (mkResponse 400 None, db).
Proof.
  intros Hlen. unfold JsonServer.create, SqliteServer.create.
  rewrite safeParse_habitSchema.
  destruct (String.length s <? 1)%nat eqn:E1; [done|].
  destruct (50 <? String.length s)%nat eqn:E2; [done|].
  apply Nat.ltb_ge in E2. lia.
Qed.

(** A name of 1 to 50 characters is accepted and stored trimmed. *)
Lemma create_accepts (s : string) (now : Z) (d : JsonServer.Disk)
    (db : SqliteServer.Db) :
  (1 ≤ String.length s ≤ 50)%nat →
  JsonServer.create (Some s) now d
  = (mkResponse 201 (Some (JsonServer.newHabit now (trim s))),
     Some (JsonServer.stored d ++ [JsonServer.newHabit now (trim s)])%list)
  ∧ (SqliteServer.create (Some s) db).2
    = SqliteServer.mkDb
        (SqliteServer.rows db
           ++ [mkHabit (SqliteServer.seq db + 1) (trim s) 0 false None])%list
        (SqliteServer.seq db + 1)
  ∧ status (SqliteServer.create (Some s) db).1 = 201.
Proof.
  intros [Hlo Hhi]. unfold JsonServer.create, SqliteServer.create.
  rewrite safeParse_habitSchema.
  destruct (String.length s <? 1)%nat eqn:E1; [apply Nat.ltb_lt in E1; lia|].
  destruct (50 <? String.length s)%nat eqn:E2; [apply Nat.ltb_lt in E2; lia|].
  by destruct d.
Qed.

(** A name of exactly 50 characters without white space is accepted and
    stored as it is. *)
Lemma create_accepts_50 (s : string) (now : Z) (d : JsonServer.Disk) :
  String.length s = 50%nat → solid s = true →
  JsonServer.create (Some s) now d
  = (mkResponse 201 (Some (JsonServer.newHabit now s)),
     Some (JsonServer.stored d ++ [JsonServer.newHabit now s])%list).
Proof.
  intros Hlen Hs.
  destruct (create_accepts s now d (SqliteServer.mkDb [] 0)) as [H _]; [lia|].
  by rewrite (trim_solid s Hs) in H.
Qed.

(** A name of 1 to 50 white-space characters passes the length checks and
    is stored as the empty name. *)
Lemma create_accepts_blank (s : string) (now : Z) (d : JsonServer.Disk) :
  (1 ≤ String.length s ≤ 50)%nat → blank s = true →
  JsonServer.create (Some s) now d
  = (mkResponse 201 (Some (JsonServer.newHabit now "")),
     Some (JsonServer.stored d ++ [JsonServer.newHabit now ""])%list).
Proof.
  intros Hlen Hs.
  destruct (create_accepts s now d (SqliteServer.mkDb [] 0)) as [H _]; [lia|].
  by rewrite (trim_blank s Hs) in H.
Qed.

(** C5.  The servers at the name of three spaces: the request is answered
    201 and a habit with the empty name is stored, where the claim has a
    400 and nothing stored. *)
Theorem create_three_spaces :
  JsonServer.create (Some "   ") 1700000000000 (Some [])
  = (mkResponse 201 (Some (mkHabit 1700000000000 "" 0 false None)),
     Some [mkHabit 1700000000000 "" 0 false None])
  ∧ SqliteServer.create (Some "   ") (SqliteServer.mkDb [] 0)
    = (mkResponse 201 (Some (mkHabit 1 "" 0 false None)),
       SqliteServer.mkDb [mkHabit 1 "" 0 false None] 1).
Proof. split; reflexivity. Qed.

(** ** Toggling in the store *)

(** [findIndex] and the SELECT by id find a habit exactly when the store
    has one with that id. *)
Lemma find_id_None (i : Z) (habits : list Habit) :
  list_find (λ h, id h = i) habits = None ↔ ∀ h, h ∈ habits → id h ≠ i.
Proof. rewrite list_find_None, Forall_forall. done. Qed.

Lemma find_id_present (i : Z) (habits : list Habit) :
  (∃ h, h ∈ habits ∧ id h = i) →
  ∃ k h, list_find (λ h, id h = i) habits = Some (k, h)
         ∧ habits !! k = Some h ∧ id h = i.
Proof.
  intros (h & Hin & Hid).
  destruct (list_find_elem_of (λ h, id h = i) habits h Hin Hid) as [[k h'] Hf].
  exists k, h'. split; [done|].
  apply list_find_Some in Hf as (? & ? & _). done.
Qed.

(** C8, as stated, fails on the JSON server when [habits.json] does not
    exist: the toggle answers 404, and [readData] has written the file,
    holding the empty array, before the lookup. *)
Lemma toggle_missing_file_counterexample :
  let c := mkClock "2024-01-10" "2024-01-09" in
  JsonServer.toggle 7 c None = (mkResponse 404 None, Some [])
  ∧ (JsonServer.toggle 7 c None).2 ≠ None.
Proof. simpl. split; [reflexivity | discriminate]. Qed.

(** C8, amended.  On both servers the toggle answers 404 exactly when the
    store holds no habit with the given id, and then the stored habits are
    the ones before.  The SQLite table and an existing JSON file are not
    written; a missing JSON file is created by [readData], holding the
    empty array. *)
Theorem toggle_not_found (i : Z) (c : Clock) :
  (∀ d : JsonServer.Disk,
     let r := JsonServer.toggle i c d in
     (status r.1 = 404 ↔ ∀ h, h ∈ JsonServer.stored d → id h ≠ i)
     ∧ (status r.1 = 404 →
          JsonServer.stored r.2 = JsonServer.stored d
          ∧ (is_Some d → r.2 = d)
          ∧ (d = None → r.2 = Some [])))
  ∧ (∀ db : SqliteServer.Db,
     let r := SqliteServer.toggle i c db in
     (status r.1 = 404 ↔ ∀ h, h ∈ SqliteServer.rows db → id h ≠ i)
     ∧ (status r.1 = 404 → r.2 = db)).
Proof.
  split.
  - intros d r. subst r. unfold JsonServer.toggle.
    assert (JsonServer.readData d
            = (JsonServer.stored d, Some (JsonServer.stored d))) as ->
      by (by destruct d).
    destruct (list_find _ (JsonServer.stored d)) as [[k h]|] eqn:Hf; simpl.
    + split; [|done]. split; [done|].
      intros Hno%find_id_None. congruence.
    + split.
      * split; [|done]. intros _. by apply find_id_None.
      * intros _. split_and!; [done | by intros [habits ->] | by intros ->].
  - intros db r. subst r. unfold SqliteServer.toggle, SqliteServer.db_get.
    destruct (list_find _ (SqliteServer.rows db)) as [[k h]|] eqn:Hf; simpl.
    + split; [|done]. split; [done|].
      intros Hno%find_id_None. congruence.
    + split; [|done]. split; [|done]. intros _. by apply find_id_None.
Qed.

(** C10.  When the store holds a habit with the toggled id, the store
    after the toggle has a habit at every place where it had one, with the
    same id and name, and the very same habit wherever the id is another
    one.  [habits] is the content of the JSON file or of the table. *)
Theorem toggle_frame (i : Z) (c : Clock) (habits : list Habit) (s : Z) :
  (∃ h, h ∈ habits ∧ id h = i) →
  ∀ habits',
    (JsonServer.toggle i c (Some habits)).2 = Some habits'
    ∨ SqliteServer.rows
        (SqliteServer.toggle i c (SqliteServer.mkDb habits s)).2 = habits' →
    length habits' = length habits
    ∧ ∀ k h, habits !! k = Some h →
        ∃ h', habits' !! k = Some h'
              ∧ id h' = id h ∧ name h' = name h
              ∧ (id h ≠ i → h' = h).
Proof.
  intros (k0 & h0 & Hf & Hk0 & Hid0)%find_id_present habits' [Hj | Hs].
  - unfold JsonServer.toggle in Hj. simpl in Hj. rewrite Hf in Hj.
    simpl in Hj. injection Hj as <-.
    split; [by rewrite length_insert|].
    intros k h Hk. destruct (decide (k = k0)) as [->|Hne].
    + assert (h = h0) as -> by congruence.
      exists (JsonServer.transition h0 c).
      rewrite list_lookup_insert_eq by (by eapply lookup_lt_Some).
      unfold JsonServer.transition.
      rewrite spread_id, spread_name. done.
    + exists h. rewrite list_lookup_insert_ne by done. done.
  - unfold SqliteServer.toggle, SqliteServer.db_get in Hs. simpl in Hs.
    rewrite Hf in Hs. simpl in Hs. subst habits'.
    split; [by rewrite length_fmap|].
    intros k h Hk. rewrite list_lookup_fmap, Hk. simpl.
    case_bool_decide.
    + eexists. split; [done|]. rewrite spread_id, spread_name. done.
    + exists h. done.
Qed.

Lemma toggle_frame_witness :
  let habits := [mkHabit 4 "read" 0 false None;
                 mkHabit 5 "run" 2 false (Some "2024-01-09")] in
  let c := mkClock "2024-01-10" "2024-01-09" in
  let habits' := [mkHabit 4 "read" 0 false None;
                  mkHabit 5 "run" 3 true (Some "2024-01-10")] in
  length habits' = length habits
  ∧ ∀ k h, habits !! k = Some h →
      ∃ h', habits' !! k = Some h'
            ∧ id h' = id h ∧ name h' = name h
            ∧ (id h ≠ 5 → h' = h).
Proof.
  intros habits c habits'.
  apply (toggle_frame 5 c habits 0).
  - exists (mkHabit 5 "run" 2 false (Some "2024-01-09")).
    split; [|reflexivity]. apply list_elem_of_further, list_elem_of_here.
  - left. reflexivity.
Defined.

(** * Further properties of the streak engine *)

Lemma toggles_snoc (T : Habit → Clock → Habit) h cs c :
  toggles T h (cs ++ [c]) = T (toggles T h cs) c.
Proof. unfold toggles. by rewrite foldl_app. Qed.

Lemma toggles_cons (T : Habit → Clock → Habit) h cs c :
  toggles T h (c :: cs) = toggles T (T h c) cs.
Proof. done. Qed.

(** A toggle that leaves the habit completed has set its last date. *)
Lemma marked_has_date (T : Habit → Clock → Habit) h c :
  T = JsonServer.transition ∨ T = SqliteServer.transition →
  completed_today (T h c) = true →
  last_completed_date (T h c) = Some (today c).
Proof.
  intros HT. destruct h as [i n s [] l]; either_backend HT; engine.
Qed.

(** X13.  After any sequence of toggles of a freshly created habit, a
    habit that is completed has a last date and a streak of at least 1. *)
Theorem completed_has_date (i : Z) (n : string) (cs : list Clock) :
  ∀ T, T = JsonServer.transition ∨ T = SqliteServer.transition →
    let h := toggles T (mkHabit i n 0 false None) cs in
    completed_today h = true →
    is_Some (last_completed_date h) ∧ 1 ≤ streak h.
Proof.
  intros T HT h Hct.
  assert (is_Some (last_completed_date h)) as Hd.
  { subst h. destruct cs as [|c cs _] using rev_ind; [done|].
    rewrite toggles_snoc in Hct |- *.
    rewrite (marked_has_date T _ c HT Hct). done. }
  split; [done|].
  destruct (streak_inv_toggles T cs HT _ (streak_inv_fresh i n)) as [_ Hl].
  apply Hl. fold h. by destruct Hd as [? ->].
Qed.

Lemma completed_has_date_witness :
  let d0 := mkClock "2024-01-09" "2024-01-08" in
  let d1 := mkClock "2024-01-10" "2024-01-09" in
  let h := toggles JsonServer.transition (mkHabit 1 "run" 0 false None)
             [d0; d1; d1] in
  is_Some (last_completed_date h) ∧ 1 ≤ streak h.
Proof.
  intros d0 d1.
  apply (completed_has_date 1 "run" [d0; d1; d1]);
    [left; reflexivity | reflexivity].
Defined.

(** One toggle: the flag flips, a streak that is not negative stays so,
    and only a marking toggle can raise it, by 1 at most. *)
Lemma step_growth (T : Habit → Clock → Habit) h c :
  T = JsonServer.transition ∨ T = SqliteServer.transition →
  0 ≤ streak h →
  completed_today (T h c) = negb (completed_today h)
  ∧ 0 ≤ streak (T h c)
  ∧ streak (T h c) ≤ streak h + (if completed_today h then 0 else 1).
Proof.
  intros HT Hs. destruct h as [i n s [] l]; either_backend HT; engine.
Qed.

Lemma toggles_growth (T : Habit → Clock → Habit) (cs : list Clock) :
  T = JsonServer.transition ∨ T = SqliteServer.transition →
  ∀ h, 0 ≤ streak h →
    streak (toggles T h cs)
    ≤ streak h + (Z.of_nat (length cs)
                  + (if completed_today h then 0 else 1)) / 2.
Proof.
  intros HT. induction cs as [|c cs IH]; intros h Hs.
  - unfold toggles. simpl. destruct (completed_today h); simpl;
      Z.div_mod_to_equations; lia.
  - rewrite toggles_cons.
    destruct (step_growth T h c HT Hs) as (Hct & Hs' & Hle).
    specialize (IH (T h c) Hs'). rewrite Hct in IH.
    rewrite length_cons, Nat2Z.inj_succ.
    destruct (completed_today h); simpl in *; Z.div_mod_to_equations; lia.
Qed.

(** X14.  The streak of a freshly created habit after a sequence of
    toggles is at most the number of marking toggles in it, every other
    one starting with the first: half the number of toggles, rounded
    up. *)
Theorem streak_bound (i : Z) (n : string) (cs : list Clock) :
  ∀ T, T = JsonServer.transition ∨ T = SqliteServer.transition →
    streak (toggles T (mkHabit i n 0 false None) cs)
    ≤ (Z.of_nat (length cs) + 1) / 2.
Proof.
  intros T HT.
  pose proof (toggles_growth T cs HT (mkHabit i n 0 false None)) as H.
  simpl in H. apply H. lia.
Qed.

Lemma streak_bound_witness :
  let d0 := mkClock "2024-01-09" "2024-01-08" in
  let d1 := mkClock "2024-01-10" "2024-01-09" in
  streak (toggles SqliteServer.transition (mkHabit 1 "run" 0 false None)
            [d0; d1; d1])
  ≤ (Z.of_nat (length [d0; d1; d1]) + 1) / 2.
Proof.
  intros d0 d1.
  apply (streak_bound 1 "run" [d0; d1; d1]). right; reflexivity.
Defined.

(** X15.  A habit completed on date [d], toggled twice on each of the
    following consecutive days (the first toggle of a day clears the flag,
    the second marks the habit done), gains one streak per day and ends
    completed on the last of these days. *)
Theorem consecutive_days (h : Habit) (d : string) (cs : list Clock) :
  completed_today h = true →
  last_completed_date h = Some d →
  consecutive d cs →
  ∀ T, T = JsonServer.transition ∨ T = SqliteServer.transition →
    toggles T h (twice cs)
    = spread h (true, streak h + Z.of_nat (length cs),
                Some (last_day d cs)).
Proof.
  intros Hct Hl Hcs T HT. revert h d Hct Hl Hcs.
  induction cs as [|c cs IH]; intros h d Hct Hl Hcs.
  - destruct h as [i n s ct l]; simpl in *. subst. by rewrite Z.add_0_r.
  - destruct Hcs as (Hy & Hne & Hcs).
    change (twice (c :: cs)) with (c :: c :: twice cs).
    rewrite !toggles_cons.
    assert (T (T h c) c = spread h (true, streak h + 1, Some (today c)))
      as Hstep.
    { destruct h as [i n s ct l], c as [t y]; simpl in *; subst.
      either_backend HT; engine. }
    rewrite Hstep.
    rewrite (IH _ (today c)); [|by destruct h..|done].
    rewrite length_cons, Nat2Z.inj_succ.
    destruct h as [i n s ct l]. unfold spread, last_day.
    cbn [id name streak foldl]. f_equal. lia.
Qed.

Lemma consecutive_days_witness :
  let h := mkHabit 7 "run" 3 true (Some "2024-01-08") in
  let d1 := mkClock "2024-01-09" "2024-01-08" in
  let d2 := mkClock "2024-01-10" "2024-01-09" in
  toggles JsonServer.transition h [d1; d1; d2; d2]
  = mkHabit 7 "run" 5 true (Some "2024-01-10").
Proof.
  intros h d1 d2.
  apply (consecutive_days h "2024-01-08" [d1; d2]);
    [reflexivity | reflexivity | | left; reflexivity].
  simpl. split_and!; (reflexivity || discriminate || exact I).
Defined.

(** X16.  Unchecking a habit completed on the date and checking it again
    on the same date costs the streak: whatever it was, it is 1
    afterwards; flag and last date are as before. *)
Theorem uncheck_recheck (h : Habit) (c : Clock) :
  completed_today h = true →
  last_completed_date h = Some (today c) →
  ∀ T, T = JsonServer.transition ∨ T = SqliteServer.transition →
    toggles T h [c; c] = spread h (true, 1, Some (today c)).
Proof.
  intros Hct Hl T HT. destruct h as [i n s ct l]; simpl in *; subst.
  either_backend HT; engine.
Qed.

Lemma uncheck_recheck_witness :
  let h := mkHabit 7 "run" 30 true (Some "2024-01-10") in
  let c := mkClock "2024-01-10" "2024-01-09" in
  toggles SqliteServer.transition h [c; c]
  = mkHabit 7 "run" 1 true (Some "2024-01-10").
Proof.
  intros h c.
  apply (uncheck_recheck h c); [reflexivity | reflexivity | right; reflexivity].
Defined.

(** * Further properties of the servers *)

Lemma filter_all {A} (P : A → Prop) `{∀ x, Decision (P x)} (l : list A) :
  Forall P l → filter P l = l.
Proof.
  induction 1 as [|x l Hx _ IH]; [done|]. by rewrite filter_cons_True, IH.
Qed.

Lemma readData_stored (d : JsonServer.Disk) :
  JsonServer.readData d = (JsonServer.stored d, Some (JsonServer.stored d)).
Proof. by destruct d. Qed.

(** ** Deleting *)

(** X1.  On both servers a delete answers 204, and the list read
    afterwards holds exactly the habits with another id, in their old
    order; a second delete of the same id changes nothing more. *)
Theorem remove_then_list (i : Z) :
  (∀ d : JsonServer.Disk,
     let r := JsonServer.remove i d in
     let listed := (JsonServer.list_habits r.2).1 in
     status r.1 = 204
     ∧ (∀ h, h ∈ listed ↔ h ∈ JsonServer.stored d ∧ id h ≠ i)
     ∧ listed `sublist_of` JsonServer.stored d
     ∧ (JsonServer.remove i r.2).2 = r.2)
  ∧ (∀ db : SqliteServer.Db,
     let r := SqliteServer.remove i db in
     let listed := SqliteServer.list_habits r.2 in
     status r.1 = 204
     ∧ (∀ h, h ∈ listed ↔ h ∈ SqliteServer.rows db ∧ id h ≠ i)
     ∧ listed `sublist_of` SqliteServer.rows db
     ∧ (SqliteServer.remove i r.2).2 = r.2).
Proof.
  split.
  - intros d r listed. subst r listed.
    unfold JsonServer.remove, JsonServer.list_habits.
    rewrite readData_stored. simpl. split_and!; [done | | |].
    + intros h. rewrite list_elem_of_filter. tauto.
    + apply sublist_filter.
    + unfold JsonServer.writeData. f_equal.
      apply list_filter_filter_l. done.
  - intros db r listed. subst r listed.
    unfold SqliteServer.remove, SqliteServer.list_habits,
      SqliteServer.db_delete. simpl. split_and!; [done | | |].
    + intros h. rewrite list_elem_of_filter. tauto.
    + apply sublist_filter.
    + f_equal. apply list_filter_filter_l. done.
Qed.



(** ** Creating *)

Lemma trimStart_length (s : string) :
  (String.length (trimStart s) ≤ String.length s)%nat.
Proof.
  induction s as [|a s IH]; simpl; [done|].
  destruct (is_white_space a); simpl; lia.
Qed.

Lemma trimEnd_length (s : string) :
  (String.length (trimEnd s) ≤ String.length s)%nat.
Proof.
  induction s as [|a s IH]; simpl; [done|].
  destruct (trimEnd s); [destruct (is_white_space a)|]; simpl in *; lia.
Qed.

Lemma trim_length (s : string) :
  (String.length (trim s) ≤ String.length s)%nat.
Proof.
  unfold trim. pose proof (trimEnd_length (trimStart s)).
  pose proof (trimStart_length s). lia.
Qed.

Lemma trimStart_starts_solid (s : string) : starts_solid (trimStart s).
Proof.
  induction s as [|a s IH]; simpl; [done|].
  destruct (is_white_space a) eqn:E; [done|]. simpl. done.
Qed.

Lemma trimEnd_starts_solid (s : string) :
  starts_solid s → starts_solid (trimEnd s).
Proof.
  destruct s as [|a s]; simpl; [done|]. intros Ha.
  destruct (trimEnd s); [rewrite Ha|]; done.
Qed.

Lemma trimStart_fixed (s : string) : starts_solid s → trimStart s = s.
Proof. destruct s as [|a s]; simpl; [done|]. by intros ->. Qed.

Lemma trimEnd_idemp (s : string) : trimEnd (trimEnd s) = trimEnd s.
Proof.
  induction s as [|a s IH]; simpl; [done|].
  destruct (trimEnd s) as [|b r] eqn:E.
  - destruct (is_white_space a) eqn:Ea; simpl; [done|]. by rewrite Ea.
  - change (trimEnd (String a (String b r)))
      with (match trimEnd (String b r) with
            | EmptyString => if is_white_space a then EmptyString
                             else String a EmptyString
            | rest => String a rest
            end).
    by rewrite IH.
Qed.

Lemma trim_idemp (s : string) : trim (trim s) = trim s.
Proof.
  unfold trim.
  rewrite (trimStart_fixed (trimEnd (trimStart s)))
    by apply trimEnd_starts_solid, trimStart_starts_solid.
  apply trimEnd_idemp.
Qed.

(** A name that is empty or longer than 50 characters is rejected and
    nothing is stored. *)
Lemma create_rejects (s : string) (now : Z) (d : JsonServer.Disk)
    (db : SqliteServer.Db) :
  ¬ (1 ≤ String.length s ≤ 50)%nat →
  JsonServer.create (Some s) now d = (mkResponse 400 None, d)
  ∧ SqliteServer.create (Some s) db = (mkResponse 400 None, db).
Proof.
  intros Hlen. unfold JsonServer.create, SqliteServer.create.
  rewrite safeParse_habitSchema.
  destruct (String.length s <? 1)%nat eqn:E1; [done|].
  destruct (50 <? String.length s)%nat eqn:E2; [done|].
  apply Nat.ltb_ge in E1, E2. lia.
Qed.

Ltac settle_iff s :=
  split_and!; split;
  first [ done
        | intros _; by exists s
        | intros Hn; exfalso; apply Hn; by exists s
        | intros (? & [= <-] & ?); contradiction
        | intros _ (? & [= <-] & ?); contradiction
        | intros (? & [=] & _)
        | intros _ (? & [=] & _) ].

(** X3.  On both servers a create is answered 201 exactly when the body
    carries a string name of 1 to 50 characters, counted before trimming,
    and 400 in every other case. *)
Theorem create_status (req_body : option string) (now : Z)
    (d : JsonServer.Disk) (db : SqliteServer.Db) :
  (status (JsonServer.create req_body now d).1 = 201
   ↔ ∃ s, req_body = Some s ∧ (1 ≤ String.length s ≤ 50)%nat)
  ∧ (status (JsonServer.create req_body now d).1 = 400
     ↔ ¬ ∃ s, req_body = Some s ∧ (1 ≤ String.length s ≤ 50)%nat)
  ∧ (status (SqliteServer.create req_body db).1 = 201
     ↔ ∃ s, req_body = Some s ∧ (1 ≤ String.length s ≤ 50)%nat)
  ∧ (status (SqliteServer.create req_body db).1 = 400
     ↔ ¬ ∃ s, req_body = Some s ∧ (1 ≤ String.length s ≤ 50)%nat).
Proof.
  destruct req_body as [s|].
  - destruct (decide (1 ≤ String.length s ≤ 50)%nat) as [Hlen|Hlen].
    + destruct (create_accepts s now d db Hlen) as (-> & _ & ->).
      simpl. settle_iff s.
    + destruct (create_rejects s now d db Hlen) as [-> ->].
      simpl. settle_iff s.
  - simpl. settle_iff "".
Qed.

(** X4.  A name of 1 to 50 characters is stored trimmed, at the end of
    the list, in a habit with streak 0, not completed and without a last
    date; the habits stored before stay.  The stored name has at most 50
    characters and trimming it again changes nothing. *)
Theorem created_habit (s : string) (now : Z) (d : JsonServer.Disk)
    (db : SqliteServer.Db) :
  (1 ≤ String.length s ≤ 50)%nat →
  JsonServer.create (Some s) now d
  = (mkResponse 201 (Some (mkHabit now (trim s) 0 false None)),
     Some (JsonServer.stored d ++ [mkHabit now (trim s) 0 false None])%list)
  ∧ (SqliteServer.create (Some s) db).2
    = SqliteServer.mkDb
        (SqliteServer.rows db
           ++ [mkHabit (SqliteServer.seq db + 1) (trim s) 0 false None])%list
        (SqliteServer.seq db + 1)
  ∧ (String.length (trim s) ≤ 50)%nat
  ∧ trim (trim s) = trim s.
Proof.
  intros Hlen.
  destruct (create_accepts s now d db Hlen) as (Hj & Hs & _).
  split_and!; [done | done | | apply trim_idemp].
  pose proof (trim_length s). lia.
Qed.

Lemma created_habit_witness :
  JsonServer.create (Some "  run 5k ") 17 (Some [])
  = (mkResponse 201 (Some (mkHabit 17 "run 5k" 0 false None)),
     Some [mkHabit 17 "run 5k" 0 false None])
  ∧ (SqliteServer.create (Some "  run 5k ") (SqliteServer.mkDb [] 0)).2
    = SqliteServer.mkDb [mkHabit 1 "run 5k" 0 false None] 1
  ∧ (String.length (trim "  run 5k ") ≤ 50)%nat
  ∧ trim (trim "  run 5k ") = trim "  run 5k ".
Proof.
  apply (created_habit "  run 5k " 17 (Some []) (SqliteServer.mkDb [] 0)).
  simpl. lia.
Defined.

(** ** Toggling through the handlers *)

Lemma json_toggle_found i c (d : JsonServer.Disk) k h :
  list_find (λ h, id h = i) (JsonServer.stored d) = Some (k, h) →
  JsonServer.toggle i c d
  = (mkResponse 200 (Some (JsonServer.transition h c)),
     Some (<[k := JsonServer.transition h c]> (JsonServer.stored d))).
Proof.
  intros Hf. unfold JsonServer.toggle. rewrite readData_stored, Hf. simpl.
  apply list_find_Some in Hf as (Hk & _ & _).
  rewrite list_lookup_insert_eq by (by eapply lookup_lt_Some). done.
Qed.

Lemma json_toggle_missing i c (d : JsonServer.Disk) :
  list_find (λ h, id h = i) (JsonServer.stored d) = None →
  JsonServer.toggle i c d = (mkResponse 404 None, Some (JsonServer.stored d)).
Proof.
  intros Hf. unfold JsonServer.toggle. by rewrite readData_stored, Hf.
Qed.

(** Rewriting the rows with one id by a function that keeps ids. *)
Lemma find_id_update (f : Habit → Habit) i (l : list Habit) :
  (∀ r, id (f r) = id r) →
  list_find (λ r, id r = i)
    ((λ r, if bool_decide (id r = i) then f r else r) <$> l)
  = prod_map Datatypes.id f <$> list_find (λ r, id r = i) l.
Proof.
  intros Hf. rewrite list_find_fmap.
  rewrite (list_find_ext _ (λ r, id r = i)).
  - destruct (list_find _ l) as [[k h]|] eqn:E; simpl; [|done].
    apply list_find_Some in E as (_ & Hid & _).
    by rewrite bool_decide_eq_true_2.
  - intros r. simpl. case_bool_decide; [rewrite Hf|]; done.
Qed.

Lemma ids_update (f : Habit → Habit) i (l : list Habit) :
  (∀ r, id (f r) = id r) →
  id <$> ((λ r, if bool_decide (id r = i) then f r else r) <$> l) = id <$> l.
Proof.
  intros Hf. rewrite <-list_fmap_compose. apply list_fmap_ext.
  intros k r _. simpl. case_bool_decide; [apply Hf|done].
Qed.

(** With ids that occur once, rewriting the rows with an id is rewriting
    the first such row. *)
Lemma update_is_insert (f : Habit → Habit) i (l : list Habit) k h :
  NoDup (id <$> l) →
  list_find (λ r, id r = i) l = Some (k, h) →
  (λ r, if bool_decide (id r = i) then f r else r) <$> l = <[k := f h]> l.
Proof.
  intros Hnd (Hk & Hid & _)%list_find_Some. apply list_eq. intros j.
  rewrite list_lookup_fmap. destruct (decide (j = k)) as [->|Hne].
  - rewrite list_lookup_insert_eq by (by eapply lookup_lt_Some).
    rewrite Hk. simpl. by rewrite bool_decide_eq_true_2.
  - rewrite list_lookup_insert_ne by done.
    destruct (l !! j) as [r|] eqn:Hj; simpl; [|done].
    case_bool_decide as Hr; [|done]. exfalso. apply Hne.
    apply (NoDup_lookup (id <$> l) j k i Hnd);
      rewrite list_lookup_fmap; [rewrite Hj | rewrite Hk]; simpl; congruence.
Qed.

Lemma sqlite_toggle_found i c habits s k h :
  list_find (λ h, id h = i) habits = Some (k, h) →
  SqliteServer.toggle i c (SqliteServer.mkDb habits s)
  = (mkResponse 200 (Some (SqliteServer.transition h c)),
     SqliteServer.mkDb
       ((λ r, if bool_decide (id r = i)
              then spread r (SqliteServer.next h c) else r) <$> habits) s).
Proof.
  intros Hf. unfold SqliteServer.toggle, SqliteServer.db_get. simpl.
  rewrite Hf. simpl. unfold SqliteServer.db_get, SqliteServer.db_update.
  simpl. rewrite (find_id_update (λ r, spread r (SqliteServer.next h c)))
    by (intros; apply spread_id).
  rewrite Hf. done.
Qed.

Lemma sqlite_toggle_missing i c habits s :
  list_find (λ h, id h = i) habits = None →
  SqliteServer.toggle i c (SqliteServer.mkDb habits s)
  = (mkResponse 404 None, SqliteServer.mkDb habits s).
Proof.
  intros Hf. unfold SqliteServer.toggle, SqliteServer.db_get. simpl.
  by rewrite Hf.
Qed.

(** X7.  When [h] at place [k] is the first stored habit with the toggled
    id, both servers answer 200 with the transition of [h], and that
    record is what the store then holds at place [k] and what a lookup by
    the id brings back. *)
Theorem toggle_answers_stored (i : Z) (c : Clock) (habits : list Habit)
    (s : Z) (k : nat) (h : Habit) :
  list_find (λ h, id h = i) habits = Some (k, h) →
  let rj := JsonServer.toggle i c (Some habits) in
  let rs := SqliteServer.toggle i c (SqliteServer.mkDb habits s) in
  rj.1 = mkResponse 200 (Some (JsonServer.transition h c))
  ∧ JsonServer.stored rj.2 !! k = Some (JsonServer.transition h c)
  ∧ list_find (λ h, id h = i) (JsonServer.stored rj.2)
    = Some (k, JsonServer.transition h c)
  ∧ rs.1 = mkResponse 200 (Some (SqliteServer.transition h c))
  ∧ SqliteServer.rows rs.2 !! k = Some (SqliteServer.transition h c)
  ∧ SqliteServer.db_get i rs.2 = Some (SqliteServer.transition h c).
Proof.
  intros Hf rj rs. subst rj rs.
  rewrite (json_toggle_found i c (Some habits) k h Hf).
  rewrite (sqlite_toggle_found i c habits s k h Hf). simpl.
  pose proof Hf as (Hk & Hid & Hfirst)%list_find_Some.
  assert (k < length habits)%nat by (by eapply lookup_lt_Some).
  split_and!; [done | by apply list_lookup_insert_eq | | done | |].
  - apply list_find_Some. split_and!.
    + by apply list_lookup_insert_eq.
    + unfold JsonServer.transition. by rewrite spread_id.
    + intros j y Hj Hlt. rewrite list_lookup_insert_ne in Hj by lia. eauto.
  - rewrite list_lookup_fmap, Hk. simpl. by rewrite bool_decide_eq_true_2.
  - unfold SqliteServer.db_get. simpl.
    rewrite (find_id_update (λ r, spread r (SqliteServer.next h c)))
      by (intros; apply spread_id).
    by rewrite Hf.
Qed.

Lemma toggle_answers_stored_witness :
  let habits := [mkHabit 4 "read" 0 false None;
                 mkHabit 5 "run" 2 false (Some "2024-01-09")] in
  let c := mkClock "2024-01-10" "2024-01-09" in
  let h := mkHabit 5 "run" 2 false (Some "2024-01-09") in
  let rj := JsonServer.toggle 5 c (Some habits) in
  let rs := SqliteServer.toggle 5 c (SqliteServer.mkDb habits 5) in
  rj.1 = mkResponse 200 (Some (JsonServer.transition h c))
  ∧ JsonServer.stored rj.2 !! 1%nat = Some (JsonServer.transition h c)
  ∧ list_find (λ h, id h = 5) (JsonServer.stored rj.2)
    = Some (1%nat, JsonServer.transition h c)
  ∧ rs.1 = mkResponse 200 (Some (SqliteServer.transition h c))
  ∧ SqliteServer.rows rs.2 !! 1%nat = Some (SqliteServer.transition h c)
  ∧ SqliteServer.db_get 5 rs.2 = Some (SqliteServer.transition h c).
Proof.
  intros habits c h.
  apply (toggle_answers_stored 5 c habits 5 1 h). reflexivity.
Defined.


(** ** Ids in the store *)

Lemma ids_filter_NoDup (P : Habit → Prop) `{∀ h, Decision (P h)}
    (l : list Habit) :
  NoDup (id <$> l) → NoDup (id <$> filter P l).
Proof.
  intros Hnd. eapply sublist_NoDup; [exact Hnd|].
  apply fmap_sublist, sublist_filter.
Qed.

Lemma ids_snoc_NoDup (l : list Habit) (h : Habit) :
  NoDup (id <$> l) → (∀ r, r ∈ l → id r ≠ id h) →
  NoDup (id <$> (l ++ [h])%list).
Proof.
  intros Hnd Hfresh. rewrite fmap_app. apply NoDup_app. split_and!.
  - done.
  - intros x (r & -> & Hr)%list_elem_of_fmap Hx. simpl in Hx.
    apply list_elem_of_singleton in Hx. by apply (Hfresh r).
  - simpl. apply NoDup_singleton.
Qed.

Lemma json_toggle_ids i c (d : JsonServer.Disk) :
  id <$> JsonServer.stored (JsonServer.toggle i c d).2
  = id <$> JsonServer.stored d.
Proof.
  destruct (list_find (λ h, id h = i) (JsonServer.stored d))
    as [[k h]|] eqn:Hf.
  - rewrite (json_toggle_found i c d k h Hf). simpl.
    rewrite list_fmap_insert. apply list_insert_id.
    apply list_find_Some in Hf as (Hk & _ & _).
    rewrite list_lookup_fmap, Hk. simpl.
    unfold JsonServer.transition. by rewrite spread_id.
  - by rewrite (json_toggle_missing i c d Hf).
Qed.

(** X5.  The JSON server on a file whose ids occur once: a toggle and a
    delete keep it so, and so does a create whose [Date.now()] is the id
    of no stored habit.  An accepted create whose [Date.now()] is the id
    of a stored habit stores that id a second time. *)
Theorem json_ids_unique (d : JsonServer.Disk) :
  NoDup (id <$> JsonServer.stored d) →
  (∀ i c, NoDup (id <$> JsonServer.stored (JsonServer.toggle i c d).2))
  ∧ (∀ i, NoDup (id <$> JsonServer.stored (JsonServer.remove i d).2))
  ∧ (∀ req_body now,
       (∀ h, h ∈ JsonServer.stored d → id h ≠ now) →
       NoDup (id <$> JsonServer.stored (JsonServer.create req_body now d).2))
  ∧ (∀ s now,
       (1 ≤ String.length s ≤ 50)%nat →
       (∃ h, h ∈ JsonServer.stored d ∧ id h = now) →
       ¬ NoDup (id <$> JsonServer.stored
                         (JsonServer.create (Some s) now d).2)).
Proof.
  intros Hnd. split_and!.
  - intros i c. by rewrite json_toggle_ids.
  - intros i. unfold JsonServer.remove. rewrite readData_stored. simpl.
    by apply ids_filter_NoDup.
  - intros req_body now Hfresh. unfold JsonServer.create.
    destruct (safeParse habitSchema req_body); [|done].
    rewrite readData_stored. simpl. by apply ids_snoc_NoDup.
  - intros s now Hlen (h & Hin & Hid).
    destruct (create_accepts s now d (SqliteServer.mkDb [] 0) Hlen)
      as (-> & _). simpl. rewrite fmap_app.
    intros (_ & Hdisj & _)%NoDup_app. apply (Hdisj now).
    + apply list_elem_of_fmap. by exists h.
    + simpl. by apply list_elem_of_singleton.
Qed.

Lemma json_ids_unique_witness :
  let d := Some [mkHabit 4 "read" 0 false None;
                 mkHabit 5 "run" 2 false (Some "2024-01-09")] in
  (∀ i c, NoDup (id <$> JsonServer.stored (JsonServer.toggle i c d).2))
  ∧ (∀ i, NoDup (id <$> JsonServer.stored (JsonServer.remove i d).2))
  ∧ (∀ req_body now,
       (∀ h, h ∈ JsonServer.stored d → id h ≠ now) →
       NoDup (id <$> JsonServer.stored (JsonServer.create req_body now d).2))
  ∧ (∀ s now,
       (1 ≤ String.length s ≤ 50)%nat →
       (∃ h, h ∈ JsonServer.stored d ∧ id h = now) →
       ¬ NoDup (id <$> JsonServer.stored
                         (JsonServer.create (Some s) now d).2)).
Proof.
  intros d. apply (json_ids_unique d).
  apply (bool_decide_unpack _). vm_compute. exact I.
Defined.

(** X18.  On the JSON server, creating a habit under an id that no stored
    habit has and deleting that id gives back the list stored before. *)
Theorem create_then_remove (s : string) (now : Z) (d : JsonServer.Disk) :
  (1 ≤ String.length s ≤ 50)%nat →
  (∀ h, h ∈ JsonServer.stored d → id h ≠ now) →
  (JsonServer.remove now (JsonServer.create (Some s) now d).2).2
  = Some (JsonServer.stored d).
Proof.
  intros Hlen Hfresh%Forall_forall.
  destruct (create_accepts s now d (SqliteServer.mkDb [] 0) Hlen) as (-> & _).
  unfold JsonServer.remove, JsonServer.writeData. simpl.
  rewrite filter_app, (filter_all _ _ Hfresh).
  rewrite filter_cons_False by (simpl; tauto).
  by rewrite filter_nil, app_nil_r.
Qed.

Lemma create_then_remove_witness :
  (JsonServer.remove 17
     (JsonServer.create (Some "run") 17
        (Some [mkHabit 4 "read" 0 false None])).2).2
  = Some [mkHabit 4 "read" 0 false None].
Proof.
  apply (create_then_remove "run" 17 (Some [mkHabit 4 "read" 0 false None])).
  - simpl. lia.
  - intros h Hh. apply list_elem_of_singleton in Hh. rewrite Hh. simpl. lia.
Defined.

(** The SQLite table. *)

Lemma find_above_seq (db : SqliteServer.Db) (i : Z) :
  Forall (λ r, id r ≤ SqliteServer.seq db) (SqliteServer.rows db) →
  SqliteServer.seq db < i →
  list_find (λ r, id r = i) (SqliteServer.rows db) = None.
Proof.
  intros Hle Hi. apply list_find_None.
  eapply Forall_impl; [exact Hle|]. simpl. intros r ?. lia.
Qed.

Lemma sqlite_create_accepted (s : string) (db : SqliteServer.Db) :
  SqliteServer.db_wf db →
  (1 ≤ String.length s ≤ 50)%nat →
  SqliteServer.create (Some s) db
  = (mkResponse 201
       (Some (mkHabit (SqliteServer.seq db + 1) (trim s) 0 false None)),
     SqliteServer.mkDb
       (SqliteServer.rows db
          ++ [mkHabit (SqliteServer.seq db + 1) (trim s) 0 false None])%list
       (SqliteServer.seq db + 1)).
Proof.
  intros [_ Hle] Hlen. unfold SqliteServer.create.
  rewrite safeParse_habitSchema.
  destruct (String.length s <? 1)%nat eqn:E1; [apply Nat.ltb_lt in E1; lia|].
  destruct (50 <? String.length s)%nat eqn:E2; [apply Nat.ltb_lt in E2; lia|].
  unfold SqliteServer.db_insert, SqliteServer.db_get. simpl.
  rewrite list_find_app_r by (apply find_above_seq; [done|lia]).
  simpl. by rewrite decide_True.
Qed.

(** X6.  The SQLite server keeps the table as the primary key wants it,
    no id twice and none above the counter, through every create, toggle
    and delete; on such a table an accepted create answers with the very
    habit it inserted, under the id one above the counter. *)
Theorem sqlite_wf_kept (db : SqliteServer.Db) :
  SqliteServer.db_wf db →
  (∀ req_body, SqliteServer.db_wf (SqliteServer.create req_body db).2)
  ∧ (∀ i c, SqliteServer.db_wf (SqliteServer.toggle i c db).2)
  ∧ (∀ i, SqliteServer.db_wf (SqliteServer.remove i db).2)
  ∧ (∀ s, (1 ≤ String.length s ≤ 50)%nat →
       (SqliteServer.create (Some s) db).1
       = mkResponse 201
           (Some (mkHabit (SqliteServer.seq db + 1) (trim s) 0 false None))).
Proof.
  intros Hwf. pose proof Hwf as [Hnd Hle]. split_and!.
  - intros [s|]; [|done].
    destruct (decide (1 ≤ String.length s ≤ 50)%nat) as [Hlen|Hlen].
    + rewrite (sqlite_create_accepted s db Hwf Hlen). split; simpl.
      * apply ids_snoc_NoDup; [done|].
        intros r Hr. simpl.
        apply (proj1 (Forall_forall _ _) Hle) in Hr. simpl in Hr. lia.
      * apply Forall_app. split; [|apply Forall_singleton; simpl; lia].
        eapply Forall_impl; [exact Hle|]. simpl. intros r ?. lia.
    + by destruct (create_rejects s 0 None db Hlen) as [_ ->].
  - intros i c. destruct db as [habits s]. simpl in *.
    destruct (list_find (λ h, id h = i) habits) as [[k h]|] eqn:Hf.
    + rewrite (sqlite_toggle_found i c habits s k h Hf). split; simpl.
      * rewrite (ids_update (λ r, spread r (SqliteServer.next h c)))
          by (intros; apply spread_id). done.
      * apply Forall_fmap. eapply Forall_impl; [exact Hle|].
        simpl. intros r ?. case_bool_decide; [rewrite spread_id|]; done.
    + by rewrite (sqlite_toggle_missing i c habits s Hf).
  - intros i. split; simpl.
    + by apply ids_filter_NoDup.
    + apply Forall_forall. intros r [_ Hr]%list_elem_of_filter.
      by apply (proj1 (Forall_forall _ _) Hle).
  - intros s Hlen. by rewrite (sqlite_create_accepted s db Hwf Hlen).
Qed.

Lemma sqlite_wf_kept_witness :
  let db := SqliteServer.mkDb
              [mkHabit 1 "read" 0 false None;
               mkHabit 3 "run" 2 false (Some "2024-01-09")] 3 in
  (∀ req_body, SqliteServer.db_wf (SqliteServer.create req_body db).2)
  ∧ (∀ i c, SqliteServer.db_wf (SqliteServer.toggle i c db).2)
  ∧ (∀ i, SqliteServer.db_wf (SqliteServer.remove i db).2)
  ∧ (∀ s, (1 ≤ String.length s ≤ 50)%nat →
       (SqliteServer.create (Some s) db).1
       = mkResponse 201
           (Some (mkHabit (SqliteServer.seq db + 1) (trim s) 0 false None))).
Proof.
  intros db. apply (sqlite_wf_kept db). split.
  - apply (bool_decide_unpack _). vm_compute. exact I.
  - apply (bool_decide_unpack _). vm_compute. exact I.
Defined.

(** X19.  On the SQLite server the id of a deleted habit is not given
    out again: after creating a habit and deleting it the rows are the old
    ones, the counter stays raised, and the next habit created gets the id
    after the deleted one. *)
Theorem sqlite_id_not_reused (s s' : string) (db : SqliteServer.Db) :
  SqliteServer.db_wf db →
  (1 ≤ String.length s ≤ 50)%nat →
  (1 ≤ String.length s' ≤ 50)%nat →
  let db1 := (SqliteServer.create (Some s) db).2 in
  let db2 := (SqliteServer.remove (SqliteServer.seq db + 1) db1).2 in
  db2 = SqliteServer.mkDb (SqliteServer.rows db) (SqliteServer.seq db + 1)
  ∧ (SqliteServer.create (Some s') db2).1
    = mkResponse 201
        (Some (mkHabit (SqliteServer.seq db + 2) (trim s') 0 false None)).
Proof.
  intros Hwf Hlen Hlen' db1 db2. subst db1 db2.
  rewrite (sqlite_create_accepted s db Hwf Hlen). simpl.
  destruct Hwf as [Hnd Hle].
  assert (SqliteServer.db_delete (SqliteServer.seq db + 1)
            (SqliteServer.mkDb
               (SqliteServer.rows db
                  ++ [mkHabit (SqliteServer.seq db + 1) (trim s) 0 false None])
               (SqliteServer.seq db + 1))
          = SqliteServer.mkDb (SqliteServer.rows db) (SqliteServer.seq db + 1))
    as ->.
  { unfold SqliteServer.db_delete. simpl. f_equal.
    rewrite filter_app, filter_cons_False by (simpl; tauto).
    rewrite filter_nil, app_nil_r. apply filter_all.
    eapply Forall_impl; [exact Hle|]. simpl. intros r ?. lia. }
  split; [done|].
  rewrite sqlite_create_accepted; [simpl; do 3 f_equal; lia | | done].
  split; simpl; [done|].
  eapply Forall_impl; [exact Hle|]. simpl. intros r ?. lia.
Qed.

Lemma sqlite_id_not_reused_witness :
  let db := SqliteServer.mkDb [mkHabit 1 "read" 0 false None] 1 in
  let db1 := (SqliteServer.create (Some "run") db).2 in
  let db2 := (SqliteServer.remove (SqliteServer.seq db + 1) db1).2 in
  db2 = SqliteServer.mkDb (SqliteServer.rows db) (SqliteServer.seq db + 1)
  ∧ (SqliteServer.create (Some "swim") db2).1
    = mkResponse 201
        (Some (mkHabit (SqliteServer.seq db + 2) (trim "swim") 0 false None)).
Proof.
  intros db. apply (sqlite_id_not_reused "run" "swim" db).
  - split; apply (bool_decide_unpack _); vm_compute; exact I.
  - simpl. lia.
  - simpl. lia.
Defined.

(** The transition of a habit as it is created. *)
Lemma transition_fresh (T : Habit → Clock → Habit) i n c :
  T = JsonServer.transition ∨ T = SqliteServer.transition →
  T (mkHabit i n 0 false None) c = mkHabit i n 1 true (Some (today c)).
Proof. intros HT. either_backend HT; engine. Qed.

(** X20.  A habit just created and toggled once under its id is answered
    with streak 1, completed, last completed on the day of the toggle, and
    stored so at the end of the list: on the JSON server when no stored
    habit has the new id, on the SQLite server on a table whose ids occur
    once and lie below the counter. *)
Theorem create_then_toggle (s : string) (now : Z) (c : Clock)
    (d : JsonServer.Disk) (db : SqliteServer.Db) :
  (1 ≤ String.length s ≤ 50)%nat →
  (∀ h, h ∈ JsonServer.stored d → id h ≠ now) →
  SqliteServer.db_wf db →
  JsonServer.toggle now c (JsonServer.create (Some s) now d).2
  = (mkResponse 200 (Some (mkHabit now (trim s) 1 true (Some (today c)))),
     Some (JsonServer.stored d
           ++ [mkHabit now (trim s) 1 true (Some (today c))])%list)
  ∧ SqliteServer.toggle (SqliteServer.seq db + 1) c
      (SqliteServer.create (Some s) db).2
    = (mkResponse 200
         (Some (mkHabit (SqliteServer.seq db + 1) (trim s) 1 true
                  (Some (today c)))),
       SqliteServer.mkDb
         (SqliteServer.rows db
          ++ [mkHabit (SqliteServer.seq db + 1) (trim s) 1 true
                (Some (today c))])%list
         (SqliteServer.seq db + 1)).
Proof.
  intros Hlen Hfresh Hwf. split.
  - destruct (create_accepts s now d db Hlen) as (-> & _). simpl.
    assert (list_find (λ h, id h = now)
              (JsonServer.stored d ++ [JsonServer.newHabit now (trim s)])
            = Some (length (JsonServer.stored d),
                    JsonServer.newHabit now (trim s))) as Hf.
    { rewrite list_find_app_r
        by (apply list_find_None, Forall_forall; exact Hfresh).
      simpl. by rewrite decide_True. }
    rewrite (json_toggle_found now c (Some _) _ _ Hf). simpl.
    rewrite insert_app_r_alt by done. rewrite Nat.sub_diag. simpl.
    unfold JsonServer.newHabit.
    by rewrite (transition_fresh JsonServer.transition) by (by left).
  - rewrite (sqlite_create_accepted s db Hwf Hlen). simpl.
    destruct Hwf as [Hnd Hle].
    assert (list_find (λ h, id h = SqliteServer.seq db + 1)
              (SqliteServer.rows db
               ++ [mkHabit (SqliteServer.seq db + 1) (trim s) 0 false None])
            = Some (length (SqliteServer.rows db),
                    mkHabit (SqliteServer.seq db + 1) (trim s) 0 false None))
      as Hf.
    { rewrite list_find_app_r by (apply find_above_seq; [done|lia]).
      simpl. by rewrite decide_True. }
    rewrite (sqlite_toggle_found _ c _ _ _ _ Hf).
    rewrite (transition_fresh SqliteServer.transition) by (by right).
    f_equal. f_equal. rewrite fmap_app. simpl.
    rewrite bool_decide_eq_true_2 by done.
    f_equal; try done.
    rewrite <-(list_fmap_id (SqliteServer.rows db)) at 2.
    apply list_fmap_ext. intros k r Hr. simpl.
    rewrite bool_decide_eq_false_2; [done|].
    apply list_elem_of_lookup_2 in Hr.
    apply (proj1 (Forall_forall _ _) Hle) in Hr. simpl in Hr. lia.
Qed.

Lemma create_then_toggle_witness :
  let c := mkClock "2024-01-10" "2024-01-09" in
  let d := Some [mkHabit 4 "read" 0 false None] in
  let db := SqliteServer.mkDb [mkHabit 1 "read" 0 false None] 1 in
  JsonServer.toggle 17 c (JsonServer.create (Some " run ") 17 d).2
  = (mkResponse 200 (Some (mkHabit 17 (trim " run ") 1 true (Some (today c)))),
     Some (JsonServer.stored d
           ++ [mkHabit 17 (trim " run ") 1 true (Some (today c))])%list)
  ∧ SqliteServer.toggle (SqliteServer.seq db + 1) c
      (SqliteServer.create (Some " run ") db).2
    = (mkResponse 200
         (Some (mkHabit (SqliteServer.seq db + 1) (trim " run ") 1 true
                  (Some (today c)))),
       SqliteServer.mkDb
         (SqliteServer.rows db
          ++ [mkHabit (SqliteServer.seq db + 1) (trim " run ") 1 true
                (Some (today c))])%list
         (SqliteServer.seq db + 1)).
Proof.
  intros c d db. apply (create_then_toggle " run " 17 c d db).
  - simpl. lia.
  - intros h Hh. apply list_elem_of_singleton in Hh. rewrite Hh. simpl. lia.
  - split; apply (bool_decide_unpack _); vm_compute; exact I.
Defined.

(** * Further properties of the client *)

(** X17.  Two optimistic toggles in a row give back the record shown
    before exactly when its streak can take it: at least 0 for a habit not
    completed, at least 1 for a completed one. *)
Theorem optimistic_twice (h : Habit) :
  Client.optimistic (Client.optimistic h) = h
  ↔ (if completed_today h then 1 ≤ streak h else 0 ≤ streak h).
Proof.
  destruct h as [i n s [] l]; unfold Client.optimistic; simpl; split.
  - intros [= H]. lia.
  - intros H. f_equal. lia.
  - intros [= H]. lia.
  - intros H. f_equal. lia.
Qed.

Lemma optimistic_id (h : Habit) : id (Client.optimistic h) = id h.
Proof. done. Qed.

(** The last [setHabits] of a successful toggle, applied to the list with
    the prediction in it, is the same replacement applied to the list
    before the click. *)
Lemma replace_after_prediction (habits : list Habit) (i : Z) (u : Habit) :
  (λ h, if bool_decide (id h = i) then u else h)
    <$> Client.toggleHabit habits i
  = (λ h, if bool_decide (id h = i) then u else h) <$> habits.
Proof.
  unfold Client.toggleHabit. rewrite <-list_fmap_compose.
  apply list_fmap_ext. intros k h _. unfold compose.
  destruct (decide (id h = i)) as [Hi|Hi].
  - rewrite (bool_decide_eq_true_2 _ Hi). rewrite optimistic_id.
    by rewrite (bool_decide_eq_true_2 _ Hi).
  - rewrite (bool_decide_eq_false_2 _ Hi).
    by rewrite (bool_decide_eq_false_2 _ Hi).
Qed.

(** X9.  Once the toggle request has settled nothing of the prediction is
    left on screen: after an ok answer whose JSON is the habit [u], the
    rows with the toggled id show [u] and the other rows are the ones
    before the click; after an answer that is not ok, and when the request
    threw, the list is the one before the click. *)
Theorem settled_server_wins (habits : list Habit) (i : Z) :
  (∀ u, Client.toggleHabit_settled habits i (Client.ok_json u)
        = (λ h, if bool_decide (id h = i) then u else h) <$> habits)
  ∧ (∀ k h, habits !! k = Some h → id h ≠ i →
       ∀ u, Client.toggleHabit_settled habits i (Client.ok_json u) !! k
            = Some h)
  ∧ Client.toggleHabit_settled habits i Client.not_ok = habits
  ∧ Client.toggleHabit_settled habits i Client.threw = habits.
Proof.
  unfold Client.toggleHabit_settled. split_and!; [| |done|done].
  - intros u. apply replace_after_prediction.
  - intros k h Hk Hi u. rewrite replace_after_prediction.
    rewrite list_lookup_fmap, Hk. simpl. by rewrite bool_decide_eq_false_2.
Qed.

(** X10.  When the list on screen is the server's list and no id occurs
    twice in it, it is the server's list again once a toggle has settled,
    whether the server answered 200 or 404, on either server. *)
Theorem toggle_keeps_client_in_sync (i : Z) (c : Clock)
    (habits : list Habit) (s : Z) :
  NoDup (id <$> habits) →
  Client.toggleHabit_settled habits i
    (Client.fetched (JsonServer.toggle i c (Some habits)).1)
  = JsonServer.stored (JsonServer.toggle i c (Some habits)).2
  ∧ Client.toggleHabit_settled habits i
      (Client.fetched (SqliteServer.toggle i c (SqliteServer.mkDb habits s)).1)
    = SqliteServer.rows
        (SqliteServer.toggle i c (SqliteServer.mkDb habits s)).2.
Proof.
  intros Hnd.
  destruct (list_find (λ h, id h = i) habits) as [[k h]|] eqn:Hf.
  - rewrite (json_toggle_found i c (Some habits) k h Hf).
    rewrite (sqlite_toggle_found i c habits s k h Hf).
    unfold Client.toggleHabit_settled. simpl.
    rewrite !replace_after_prediction.
    rewrite (update_is_insert (λ _, JsonServer.transition h c) i habits k h)
      by done.
    rewrite (update_is_insert (λ _, SqliteServer.transition h c) i habits k h)
      by done.
    rewrite (update_is_insert
               (λ r, spread r (SqliteServer.next h c)) i habits k h)
      by done.
    done.
  - rewrite (json_toggle_missing i c (Some habits) Hf).
    by rewrite (sqlite_toggle_missing i c habits s Hf).
Qed.

Lemma toggle_keeps_client_in_sync_witness :
  let habits := [mkHabit 4 "read" 0 false None;
                 mkHabit 5 "run" 2 false (Some "2024-01-05")] in
  let c := mkClock "2024-01-10" "2024-01-09" in
  Client.toggleHabit_settled habits 5
    (Client.fetched (JsonServer.toggle 5 c (Some habits)).1)
  = JsonServer.stored (JsonServer.toggle 5 c (Some habits)).2
  ∧ Client.toggleHabit_settled habits 5
      (Client.fetched (SqliteServer.toggle 5 c (SqliteServer.mkDb habits 5)).1)
    = SqliteServer.rows
        (SqliteServer.toggle 5 c (SqliteServer.mkDb habits 5)).2.
Proof.
  intros habits c. apply (toggle_keeps_client_in_sync 5 c habits 5).
  apply (bool_decide_unpack _). vm_compute. exact I.
Defined.

(** ** Adding and deleting from the client *)

Lemma trimEnd_empty (s : string) : trimEnd s = "" → blank s = true.
Proof.
  induction s as [|a s IH]; simpl; [done|].
  destruct (trimEnd s); [|done].
  destruct (is_white_space a); [|done]. intros _. by apply IH.
Qed.

Lemma trimStart_blank_inv (s : string) :
  blank (trimStart s) = true → blank s = true.
Proof.
  induction s as [|a s IH]; simpl; [done|].
  destruct (is_white_space a) eqn:E; simpl; [done|]. by rewrite E.
Qed.

Lemma trim_empty_iff (s : string) : trim s = "" ↔ blank s = true.
Proof.
  split; [|apply trim_blank].
  intros H. by apply trimStart_blank_inv, trimEnd_empty.
Qed.

(** X11.  [addHabit] posts nothing for a name of white space only, and
    posts every other name as it was typed; a name it posts, when the
    schema accepts it, is never stored as the empty name. *)
Theorem addHabit_never_blank (newHabitName : string) :
  match Client.addHabit_request newHabitName with
  | None => blank newHabitName = true
  | Some s =>
      s = newHabitName
      ∧ blank s = false
      ∧ (∀ n, safeParse habitSchema (Some s) = success n → n ≠ "")
      ∧ (∀ now d h, body (JsonServer.create (Some s) now d).1 = Some h →
           name h ≠ "")
  end.
Proof.
  unfold Client.addHabit_request.
  destruct (trim newHabitName) as [|a t] eqn:E.
  - by apply trim_empty_iff.
  - assert (∀ n, safeParse habitSchema (Some newHabitName) = success n →
                 n ≠ "") as Hn.
    { intros n. rewrite safeParse_habitSchema.
      destruct (String.length newHabitName <? 1)%nat; [done|].
      destruct (50 <? String.length newHabitName)%nat; [done|].
      intros [= <-]. by rewrite E. }
    split_and!; [done | | done |].
    + destruct (blank newHabitName) eqn:Hb; [|done].
      apply trim_empty_iff in Hb. congruence.
    + intros now d h. unfold JsonServer.create.
      destruct (safeParse habitSchema (Some newHabitName)) as [n|] eqn:Hp;
        [|done].
      rewrite readData_stored. simpl. intros [= <-]. simpl. by apply Hn.
Qed.

(** X21.  When the list on screen is the server's list, it is the
    server's list again once an [addHabit] request has settled, accepted
    or rejected; the input field is cleared exactly when the habit was
    created.  On the SQLite server this holds on a table whose ids occur
    once and lie below the counter. *)
Theorem add_keeps_client_in_sync (newHabitName : string) (now : Z)
    (habits : list Habit) (s : Z) :
  SqliteServer.db_wf (SqliteServer.mkDb habits s) →
  let rj := JsonServer.create (Some newHabitName) now (Some habits) in
  let rs := SqliteServer.create (Some newHabitName)
              (SqliteServer.mkDb habits s) in
  (Client.addHabit_settled habits newHabitName (Client.fetched rj.1)).1
  = JsonServer.stored rj.2
  ∧ (Client.addHabit_settled habits newHabitName (Client.fetched rs.1)).1
    = SqliteServer.rows rs.2
  ∧ ((Client.addHabit_settled habits newHabitName (Client.fetched rj.1)).2
     = if bool_decide (status rj.1 = 201) then "" else newHabitName).
Proof.
  intros Hwf rj rs. subst rj rs.
  destruct (decide (1 ≤ String.length newHabitName ≤ 50)%nat) as [Hlen|Hlen].
  - rewrite (sqlite_create_accepted _ _ Hwf Hlen).
    destruct (create_accepts newHabitName now (Some habits)
                (SqliteServer.mkDb habits s) Hlen) as (-> & _).
    done.
  - destruct (create_rejects newHabitName now (Some habits)
                (SqliteServer.mkDb habits s) Hlen) as [-> ->].
    done.
Qed.

Lemma add_keeps_client_in_sync_witness :
  let habits := [mkHabit 1 "read" 0 false None] in
  let rj := JsonServer.create (Some "run") 17 (Some habits) in
  let rs := SqliteServer.create (Some "run") (SqliteServer.mkDb habits 1) in
  (Client.addHabit_settled habits "run" (Client.fetched rj.1)).1
  = JsonServer.stored rj.2
  ∧ (Client.addHabit_settled habits "run" (Client.fetched rs.1)).1
    = SqliteServer.rows rs.2
  ∧ ((Client.addHabit_settled habits "run" (Client.fetched rj.1)).2
     = if bool_decide (status rj.1 = 201) then "" else "run").
Proof.
  intros habits. apply (add_keeps_client_in_sync "run" 17 habits 1).
  split; apply (bool_decide_unpack _); vm_compute; exact I.
Defined.

(** X12.  A confirmed [deleteHabit] shows at once the list both servers
    store after the delete of the same id, when the list on screen was the
    server's; a declined one changes nothing. *)
Theorem deleteHabit_matches_server (habits : list Habit) (i : Z) (s : Z) :
  Client.deleteHabit true habits i
  = JsonServer.stored (JsonServer.remove i (Some habits)).2
  ∧ Client.deleteHabit true habits i
    = SqliteServer.list_habits
        (SqliteServer.remove i (SqliteServer.mkDb habits s)).2
  ∧ (∀ h, h ∈ Client.deleteHabit true habits i → id h ≠ i)
  ∧ Client.deleteHabit false habits i = habits.
Proof.
  split_and!; [done | done | | done].
  intros h [? _]%list_elem_of_filter. done.
Qed.

(** * The JSON file *)

(** X22.  Reading the list, toggling and deleting leave [habits.json] in
    place whatever they answer, a missing file being created with the
    empty list; reading answers the stored habits and changes none of
    them.  A create leaves a missing file missing exactly when it rejects
    the request. *)
Theorem file_exists_after (d : JsonServer.Disk) :
  JsonServer.list_habits d
    = (JsonServer.stored d, Some (JsonServer.stored d))
  ∧ (∀ i c, is_Some (JsonServer.toggle i c d).2)
  ∧ (∀ i, is_Some (JsonServer.remove i d).2)
  ∧ (∀ req_body now,
       is_Some (JsonServer.create req_body now d).2
       ↔ is_Some d ∨ status (JsonServer.create req_body now d).1 = 201).
Proof.
  split_and!.
  - apply readData_stored.
  - intros i c. unfold JsonServer.toggle. rewrite readData_stored.
    by destruct (list_find _ _) as [[??]|].
  - intros i. unfold JsonServer.remove. by rewrite readData_stored.
  - intros req_body now. unfold JsonServer.create.
    destruct (safeParse habitSchema req_body).
    + rewrite readData_stored. simpl. split; [by right | done].
    + simpl. split; [by left | by intros [?|?]].
Qed.
